(** * Booking and payment lifecycle of the ALX travel application

    A shallow embedding of [listings/views.py] (the booking and payment
    view sets) and [listings/tasks.py] (the Celery e-mail tasks), with the
    properties of the booking-to-payment lifecycle proved about it.

    Conventions of the embedding:
    - database tables are finite maps from primary key to row; a view is a
      function from the state of the system before the request to its
      answer and the state after it;
    - the request's user is an explicit argument of every view;
    - the Chapa gateway is an argument too: a record saying what the client
      does when it is built and when each of its methods is called;
    - [Decimal] amounts are exact integers counted in hundredths, and a
      [date] is its proleptic Gregorian ordinal, as [date.toordinal()]
      numbers it. *)

From Stdlib Require Import ZArith String Ascii List Lia.
From stdpp Require Import base option gmap strings list.
From Equations Require Import Equations.
Import ListNotations.

Local Open Scope string_scope.
Local Open Scope Z_scope.

(** ** Python values *)

(** A [Decimal] of the models, with its two decimal places: the number of
    hundredths. Sums and products by an [int] are exact. *)
Definition Decimal := Z.

(** A [Decimal] written with whole units, [units 100] for [Decimal("100.00")]. *)
Definition units (n : Z) : Decimal := 100 * n.

Definition date := Z.

(** [datetime.date(y, m, d).toordinal()], after CPython's [_ymd2ord]. *)
Definition is_leap (y : Z) : bool :=
  (y mod 4 =? 0) && (negb (y mod 100 =? 0) || (y mod 400 =? 0)).

Definition days_before_year (y : Z) : Z :=
  let y1 := y - 1 in y1 * 365 + y1 / 4 - y1 / 100 + y1 / 400.

Definition DAYS_BEFORE_MONTH (m : Z) : Z :=
  match m with
  | 1 => 0 | 2 => 31 | 3 => 59 | 4 => 90 | 5 => 120 | 6 => 151
  | 7 => 181 | 8 => 212 | 9 => 243 | 10 => 273 | 11 => 304 | 12 => 334
  | _ => 0
  end.

Definition days_before_month (y m : Z) : Z :=
  DAYS_BEFORE_MONTH m + (if (2 <? m) && is_leap y then 1 else 0).

Definition ymd (y m d : Z) : date :=
  days_before_year y + days_before_month y m + d.

(** [(d2 - d1).days] *)
Definition days (d2 d1 : date) : Z := d2 - d1.

(** [str.lower()] on ASCII text. *)
Definition lower_ascii (c : ascii) : ascii :=
  let n := nat_of_ascii c in
  if (65 <=? n)%nat && (n <=? 90)%nat then ascii_of_nat (n + 32) else c.

Fixpoint lower (s : string) : string :=
  match s with
  | EmptyString => EmptyString
  | String c s' => String (lower_ascii c) (lower s')
  end.

(** Truth value of an optional string: [None] and [''] are false. *)
Definition truthy (o : option string) : bool :=
  match o with
  | Some s => negb (String.eqb s "")
  | None => false
  end.

(** [a or b] on strings. *)
Definition str_or (a b : string) : string :=
  if String.eqb a "" then b else a.

(** [o or b] where [o] may be [None]. *)
Definition opt_or (o : option string) (b : string) : string :=
  match o with
  | Some s => str_or s b
  | None => b
  end.

(** [d.get(key, dflt)] on a key that may be absent. *)
Definition get_default (o : option string) (dflt : string) : string :=
  match o with
  | Some s => s
  | None => dflt
  end.

(** [str(x)] of a value that may be [None]. *)
Definition str_opt (o : option string) : string :=
  get_default o "None".

(** ** The data model *)

Module User.
Record t := { pk : Z; username : string; first_name : string; email : string }.

(** Django compares model instances by primary key. *)
Definition eqb (u v : t) : bool := pk u =? pk v.
End User.

Module Listing.
Record t := {
  listing_id : string;
  host : User.t;
  title : string;
  location : string;
  price_per_night : Decimal }.
End Listing.

Module Booking.
Record t := {
  booking_id : string;
  guest : User.t;
  listing : Listing.t;
  check_in_date : date;
  check_out_date : date;
  total_price : Decimal;
  status : string }.

Definition set_status (s : string) (b : t) : t :=
  {| booking_id := booking_id b; guest := guest b; listing := listing b;
     check_in_date := check_in_date b; check_out_date := check_out_date b;
     total_price := total_price b; status := s |}.
End Booking.

Module Payment.
(** [booking] is the row reached through the one-to-one key; the views
    read only its identifier, guest, listing and dates through it. *)
Record t := {
  payment_id : string;
  booking : Booking.t;
  amount : Decimal;
  currency : string;
  status : string;
  chapa_reference : option string;
  transaction_id : option string;
  payment_method : option string;
  error_message : option string }.
End Payment.

(** ** Answers of a view *)

Inductive value :=
| VStr (s : string)
| VBool (b : bool)
| VDecimal (d : Decimal)   (* [str(d)] of a Decimal *)
| VDate (d : date)         (* [str(d)] of a date *)
| VNone.

Inductive body :=
| Data (kv : list (string * value))
| BookingData (b : Booking.t).      (* [serializer.data] of a booking *)

Inductive result :=
| Response (data : body) (status : Z)
| PermissionDenied (detail : string)   (* raised; answered 403 *)
| Http404                              (* raised by [get_object] *)
| DoesNotExist                         (* [Listing.DoesNotExist], not caught *)
| ValidationError (detail : string)    (* raised by [is_valid] *)
| InvalidUUID (value : string).        (* django's [ValidationError] for a text that spells
                                          no identifier, raised by a lookup and not caught *)

Definition HTTP_200_OK : Z := 200.
Definition HTTP_201_CREATED : Z := 201.
Definition HTTP_400_BAD_REQUEST : Z := 400.
Definition HTTP_404_NOT_FOUND : Z := 404.
Definition HTTP_500_INTERNAL_SERVER_ERROR : Z := 500.

(** ** Celery tasks and the gateway *)

Inductive Task :=
| send_booking_confirmation_email_task
    (booking_id guest_email guest_name listing_title listing_location : string)
    (check_in_date check_out_date : date) (total_price : Decimal)
| send_payment_confirmation_email_task
    (booking_id guest_email guest_name listing_title listing_location : string)
    (check_in_date check_out_date : date) (amount : Decimal)
    (currency payment_id : string) (transaction_id : option string)
| send_payment_failure_email_task
    (guest_email guest_name listing_title booking_id error_message : string).

(** What reaches the [except] clauses of a view. *)
Inductive exn :=
| ValueError (msg : string)
| Exception (msg : string).   (* any exception that is not a ValueError *)

Definition str_exn (e : exn) : string :=
  match e with
  | ValueError msg => msg
  | Exception msg => msg
  end.

Inductive raises (A : Type) :=
| Returns (a : A)
| Raises (e : exn).
Arguments Returns {A} a.
Arguments Raises {A} e.

(** The dictionary returned by [ChapaAPIClient.initiate_payment]. *)
Record InitiateResult := {
  init_success : bool;
  init_checkout_url : option string;
  init_reference : option string;
  init_error : option string }.

(** The dictionary returned by [ChapaAPIClient.verify_payment]. *)
Record VerifyResult := {
  ver_success : bool;
  ver_status : option string;
  ver_reference : option string;
  ver_method : option string;
  ver_amount : option string;
  ver_received_amount : option string;
  ver_error : option string }.

(** The gateway client as the views use it: [ChapaAPIClient()] may raise,
    and so may each method. *)
Record ChapaAPIClient := {
  chapa_new : option exn;
  chapa_initiate_payment : Payment.t -> Booking.t -> raises InitiateResult;
  chapa_verify_payment : string -> raises VerifyResult }.

Inductive ChapaCall :=
| InitiateCall (payment_id : string)
| VerifyCall (tx_ref : string).

Inductive level := ERROR | INFO.

(** ** The state of the system *)

Record World := {
  listings : gmap string Listing.t;
  bookings : gmap string Booking.t;
  payments : gmap string Payment.t;
  celery_queue : list Task;          (* tasks handed over with [.delay] *)
  chapa_calls : list ChapaCall;      (* methods called on a gateway client *)
  log : list (level * string);       (* records written through [logger] *)
  uuid4 : nat -> string;             (* the identifiers new rows receive *)
  uuid_next : nat;
  DEFAULT_CURRENCY : string;
  uuid_text : string -> option string }.   (* the identifier a text spells, if any *)

Definition set_bookings (f : gmap string Booking.t -> gmap string Booking.t) (w : World) : World :=
  {| listings := listings w; bookings := f (bookings w); payments := payments w;
     celery_queue := celery_queue w; chapa_calls := chapa_calls w; log := log w;
     uuid4 := uuid4 w; uuid_next := uuid_next w; DEFAULT_CURRENCY := DEFAULT_CURRENCY w;
     uuid_text := uuid_text w |}.

Definition set_payments (f : gmap string Payment.t -> gmap string Payment.t) (w : World) : World :=
  {| listings := listings w; bookings := bookings w; payments := f (payments w);
     celery_queue := celery_queue w; chapa_calls := chapa_calls w; log := log w;
     uuid4 := uuid4 w; uuid_next := uuid_next w; DEFAULT_CURRENCY := DEFAULT_CURRENCY w;
     uuid_text := uuid_text w |}.

(** [task.delay(...)]: the task is put on the queue and the view goes on.
    The broker is taken to accept the task. *)
Definition delay (t : Task) (w : World) : World :=
  {| listings := listings w; bookings := bookings w; payments := payments w;
     celery_queue := celery_queue w ++ [t]; chapa_calls := chapa_calls w; log := log w;
     uuid4 := uuid4 w; uuid_next := uuid_next w; DEFAULT_CURRENCY := DEFAULT_CURRENCY w;
     uuid_text := uuid_text w |}.

Definition call_chapa (c : ChapaCall) (w : World) : World :=
  {| listings := listings w; bookings := bookings w; payments := payments w;
     celery_queue := celery_queue w; chapa_calls := chapa_calls w ++ [c]; log := log w;
     uuid4 := uuid4 w; uuid_next := uuid_next w; DEFAULT_CURRENCY := DEFAULT_CURRENCY w;
     uuid_text := uuid_text w |}.

Definition logger (l : level) (msg : string) (w : World) : World :=
  {| listings := listings w; bookings := bookings w; payments := payments w;
     celery_queue := celery_queue w; chapa_calls := chapa_calls w; log := log w ++ [(l, msg)];
     uuid4 := uuid4 w; uuid_next := uuid_next w; DEFAULT_CURRENCY := DEFAULT_CURRENCY w;
     uuid_text := uuid_text w |}.

(** A new primary key, as the [uuid4] default of the models gives one. *)
Definition new_uuid (w : World) : string * World :=
  (uuid4 w (uuid_next w),
   {| listings := listings w; bookings := bookings w; payments := payments w;
      celery_queue := celery_queue w; chapa_calls := chapa_calls w; log := log w;
      uuid4 := uuid4 w; uuid_next := S (uuid_next w); DEFAULT_CURRENCY := DEFAULT_CURRENCY w;
     uuid_text := uuid_text w |}).

(** [booking.save()] *)
Definition save_booking (b : Booking.t) (w : World) : World :=
  set_bookings (insert (Booking.booking_id b) b) w.

(** [payment.save()] *)
Definition save_payment (p : Payment.t) (w : World) : World :=
  set_payments (insert (Payment.payment_id p) p) w.

(** ** Helpers of [chapa_utils.py] *)

(** Modelled from the spec: [create_payment_for_booking] of
    [listings/chapa_utils.py], which is not under src/. Section 4.1 of the
    spec: the dependent Payment has status [pending], amount equal to the
    booking's total price and the platform's default currency. *)
Definition create_payment_for_booking (booking : Booking.t) (w : World) : Payment.t * World :=
  let '(pid, w) := new_uuid w in
  let payment :=
    {| Payment.payment_id := pid;
       Payment.booking := booking;
       Payment.amount := Booking.total_price booking;
       Payment.currency := DEFAULT_CURRENCY w;
       Payment.status := "pending";
       Payment.chapa_reference := None;
       Payment.transaction_id := None;
       Payment.payment_method := None;
       Payment.error_message := None |} in
  (payment, save_payment payment w).

(** A keyword argument left out keeps the field as it is. *)
Definition kwarg (new old : option string) : option string :=
  match new with
  | Some v => Some v
  | None => old
  end.

(** Modelled from the spec: [update_payment_status] of
    [listings/chapa_utils.py], which is not under src/. Section 4.2 of the
    spec: the status is set and the reference, transaction id, method or
    error message given with it is recorded; section 5: status and dependent
    fields are persisted together. The function looks at no field of the
    payment before it writes. [updated_payment] gives the row,
    [update_payment_status] saves it. *)
Definition updated_payment (payment : Payment.t) (status : string)
    (chapa_reference transaction_id payment_method error_message : option string) : Payment.t :=
  {| Payment.payment_id := Payment.payment_id payment;
     Payment.booking := Payment.booking payment;
     Payment.amount := Payment.amount payment;
     Payment.currency := Payment.currency payment;
     Payment.status := status;
     Payment.chapa_reference := kwarg chapa_reference (Payment.chapa_reference payment);
     Payment.transaction_id := kwarg transaction_id (Payment.transaction_id payment);
     Payment.payment_method := kwarg payment_method (Payment.payment_method payment);
     Payment.error_message := kwarg error_message (Payment.error_message payment) |}.

Definition update_payment_status (payment : Payment.t) (status : string)
    (chapa_reference transaction_id payment_method error_message : option string)
    (w : World) : Payment.t * World :=
  let payment :=
    updated_payment payment status chapa_reference transaction_id payment_method error_message in
  (payment, save_payment payment w).

(** ** [BookingViewSet] *)

(** The data of a request that creates a booking: [request.data] gives
    [listing_id], the serializer's [validated_data] the rest. *)
Record BookingRequest := {
  req_listing_id : option string;
  req_check_in_date : date;
  req_check_out_date : date;
  req_total_price : option Decimal }.

(** [not total_price]: true for [None] and for a zero Decimal. *)
Definition not_total_price (o : option Decimal) : bool :=
  match o with
  | Some d => d =? 0
  | None => true
  end.

(** [Listing.objects.get(listing_id=listing_id)]; [None] stands for
    [Listing.DoesNotExist]. *)
Definition get_listing (w : World) (listing_id : option string) : option Listing.t :=
  match listing_id with
  | Some k => listings w !! k
  | None => None
  end.

(** [BookingViewSet.perform_create]. [None] in the answer stands for
    [Listing.DoesNotExist] going up to the caller. The new row's status is
    the model's default, [pending] by section 4.1 of the spec (models.py is
    not under src/). *)
Definition perform_create (user : User.t) (req : BookingRequest) (w : World)
    : option Booking.t * World :=
  match get_listing w (req_listing_id req) with
  | None => (None, w)
  | Some listing =>
    let total_price :=
      if not_total_price (req_total_price req) then
        let check_in := req_check_in_date req in
        let check_out := req_check_out_date req in
        let days := days check_out check_in in
        Listing.price_per_night listing * days
      else
        match req_total_price req with Some d => d | None => 0 end in
    let '(bid, w) := new_uuid w in
    let booking :=
      {| Booking.booking_id := bid;
         Booking.guest := user;
         Booking.listing := listing;
         Booking.check_in_date := req_check_in_date req;
         Booking.check_out_date := req_check_out_date req;
         Booking.total_price := total_price;
         Booking.status := "pending" |} in
    let w := save_booking booking w in
    let '(_, w) := create_payment_for_booking booking w in
    (Some booking, w)
  end.

(** Modelled from the spec: the validation of [BookingSerializer]
    ([listings/serializers.py] is not under src/). Section 4.1 of the spec:
    creation fails with [InvalidRange] if check_out <= check_in. [Some]
    carries the error. *)
Definition is_valid (req : BookingRequest) : option string :=
  if req_check_out_date req <=? req_check_in_date req then Some "InvalidRange" else None.

(** [CreateModelMixin.create] as the framework runs it: validation first,
    then [perform_create], then the serialized row with status 201. *)
Definition create (user : User.t) (req : BookingRequest) (w : World) : result * World :=
  match is_valid req with
  | Some err => (ValidationError err, w)
  | None =>
    match perform_create user req w with
    | (None, w) => (DoesNotExist, w)
    | (Some booking, w) => (Response (BookingData booking) HTTP_201_CREATED, w)
    end
  end.

(** [BookingViewSet.get_queryset] as a test on one row:
    [Q(guest=user) | Q(listing__host=user)]. *)
Definition booking_in_queryset (user : User.t) (b : Booking.t) : bool :=
  User.eqb (Booking.guest b) user || User.eqb (Listing.host (Booking.listing b)) user.

(** [self.get_object()] of the framework: the row with this key among those
    of [get_queryset]; [None] stands for [Http404]. *)
Definition get_booking (w : World) (user : User.t) (pk : string) : option Booking.t :=
  match bookings w !! pk with
  | Some b => if booking_in_queryset user b then Some b else None
  | None => None
  end.

(** [x in ['pending', 'confirmed']] *)
Definition str_in (x : string) (l : list string) : bool :=
  existsb (String.eqb x) l.

(** The body of [BookingViewSet.cancel], after [booking = self.get_object()]. *)
Definition cancel_booking (user : User.t) (booking : Booking.t) (w : World) : result * World :=
  if negb (User.eqb (Booking.guest booking) user)
     && negb (User.eqb (Listing.host (Booking.listing booking)) user) then
    (PermissionDenied "You can only cancel your own bookings or bookings for your listings.", w)
  else if negb (str_in (Booking.status booking) ["pending"; "confirmed"]) then
    (Response (Data [("detail", VStr ("Cannot cancel a " +:+ Booking.status booking +:+ " booking."))])
       HTTP_400_BAD_REQUEST, w)
  else
    let booking := Booking.set_status "cancelled" booking in
    let w := save_booking booking w in
    (Response (BookingData booking) HTTP_200_OK, w).

(** [BookingViewSet.cancel] *)
Definition cancel (user : User.t) (pk : string) (w : World) : result * World :=
  match get_booking w user pk with
  | None => (Http404, w)
  | Some booking => cancel_booking user booking w
  end.

(** The body of [BookingViewSet.confirm], after [booking = self.get_object()]. *)
Definition confirm_booking (user : User.t) (booking : Booking.t) (w : World) : result * World :=
  if negb (User.eqb (Listing.host (Booking.listing booking)) user) then
    (PermissionDenied "Only the listing host can confirm bookings.", w)
  else if negb (String.eqb (Booking.status booking) "pending") then
    (Response (Data [("detail", VStr ("Cannot confirm a " +:+ Booking.status booking +:+ " booking."))])
       HTTP_400_BAD_REQUEST, w)
  else
    let booking := Booking.set_status "confirmed" booking in
    let w := save_booking booking w in
    (Response (BookingData booking) HTTP_200_OK, w).

(** [BookingViewSet.confirm] *)
Definition confirm (user : User.t) (pk : string) (w : World) : result * World :=
  match get_booking w user pk with
  | None => (Http404, w)
  | Some booking => confirm_booking user booking w
  end.

(** [booking.payment]: the payment row that points to this booking; [None]
    stands for [Payment.DoesNotExist]. *)
Definition booking_payment (w : World) (booking : Booking.t) : option Payment.t :=
  List.find
    (fun p => String.eqb (Booking.booking_id (Payment.booking p)) (Booking.booking_id booking))
    (snd <$> map_to_list (payments w)).

(** [result.get(key)] as a value of the answer. *)
Definition opt_value (o : option string) : value :=
  match o with
  | Some s => VStr s
  | None => VNone
  end.

(** The two [except] clauses of [initiate_payment]. *)
Definition initiate_payment_except (e : exn) (w : World) : result * World :=
  match e with
  | ValueError msg =>
    let w := logger ERROR ("Configuration error: " +:+ msg) w in
    (Response (Data [("error", VStr ("Configuration error: " +:+ msg))])
       HTTP_500_INTERNAL_SERVER_ERROR, w)
  | Exception msg =>
    let w := logger ERROR ("Unexpected error during payment initiation: " +:+ msg) w in
    (Response (Data [("error", VStr ("Unexpected error: " +:+ msg))])
       HTTP_500_INTERNAL_SERVER_ERROR, w)
  end.

(** [try: payment = booking.payment] with its
    [except Payment.DoesNotExist: payment = create_payment_for_booking(booking)]. *)
Definition payment_of_booking (booking : Booking.t) (w : World) : Payment.t * World :=
  match booking_payment w booking with
  | Some payment => (payment, w)
  | None => create_payment_for_booking booking w
  end.

(** The body of [BookingViewSet.initiate_payment], after
    [booking = self.get_object()]. *)
Definition initiate_payment_booking (chapa_client : ChapaAPIClient) (user : User.t)
    (booking : Booking.t) (w : World) : result * World :=
  if negb (User.eqb (Booking.guest booking) user) then
    (PermissionDenied "You can only initiate payment for your own bookings.", w)
  else
    let '(payment, w) := payment_of_booking booking w in
    if negb (String.eqb (Payment.status payment) "pending") then
      (Response
         (Data [("detail", VStr ("Cannot initiate payment for " +:+ Payment.status payment +:+ " payment."))])
         HTTP_400_BAD_REQUEST, w)
    else
      match chapa_new chapa_client with
      | Some e => initiate_payment_except e w
      | None =>
        let w := call_chapa (InitiateCall (Payment.payment_id payment)) w in
        match chapa_initiate_payment chapa_client payment booking with
        | Raises e => initiate_payment_except e w
        | Returns result =>
          if init_success result then
            let '(payment, w) :=
              update_payment_status payment "pending" (init_reference result) None None None w in
            (Response
               (Data [("success", VBool true);
                      ("checkout_url", opt_value (init_checkout_url result));
                      ("payment_id", VStr (Payment.payment_id payment));
                      ("amount", VDecimal (Payment.amount payment));
                      ("currency", VStr (Payment.currency payment))])
               HTTP_200_OK, w)
          else
            let error_msg := get_default (init_error result) "Unknown error" in
            let '(payment, w) :=
              update_payment_status payment "failed" None None None (Some error_msg) w in
            (Response (Data [("success", VBool false); ("error", VStr error_msg)])
               HTTP_400_BAD_REQUEST, w)
        end
      end.

(** [BookingViewSet.initiate_payment] *)
Definition initiate_payment (chapa_client : ChapaAPIClient) (user : User.t) (pk : string)
    (w : World) : result * World :=
  match get_booking w user pk with
  | None => (Http404, w)
  | Some booking => initiate_payment_booking chapa_client user booking w
  end.

(** ** [PaymentViewSet] *)

(** [PaymentViewSet.get_queryset] as a test on one row:
    [Q(booking__guest=user) | Q(booking__listing__host=user)]. *)
Definition payment_in_queryset (user : User.t) (p : Payment.t) : bool :=
  User.eqb (Booking.guest (Payment.booking p)) user
  || User.eqb (Listing.host (Booking.listing (Payment.booking p))) user.

(** [self.get_object()]; [None] stands for [Http404]. *)
Definition get_payment (w : World) (user : User.t) (pk : string) : option Payment.t :=
  match payments w !! pk with
  | Some p => if payment_in_queryset user p then Some p else None
  | None => None
  end.

(** The keyword arguments both verification views give to
    [send_payment_confirmation_email_task.delay]. *)
Definition confirmation_task (payment : Payment.t) (result : VerifyResult) : Task :=
  let booking := Payment.booking payment in
  send_payment_confirmation_email_task
    (Booking.booking_id booking)
    (User.email (Booking.guest booking))
    (str_or (User.first_name (Booking.guest booking)) (User.username (Booking.guest booking)))
    (Listing.title (Booking.listing booking))
    (Listing.location (Booking.listing booking))
    (Booking.check_in_date booking)
    (Booking.check_out_date booking)
    (Payment.amount payment)
    (Payment.currency payment)
    (Payment.payment_id payment)
    (ver_reference result).

(** The keyword arguments of [send_payment_failure_email_task.delay] in
    [verify_status]. *)
Definition failure_task (payment : Payment.t) : Task :=
  let booking := Payment.booking payment in
  send_payment_failure_email_task
    (User.email (Booking.guest booking))
    (str_or (User.first_name (Booking.guest booking)) (User.username (Booking.guest booking)))
    (Listing.title (Booking.listing booking))
    (Booking.booking_id booking)
    "Your payment failed. Please try again.".

(** The two [except] clauses of [verify_status]. *)
Definition verify_status_except (e : exn) (w : World) : result * World :=
  match e with
  | ValueError msg =>
    let w := logger ERROR ("Configuration error: " +:+ msg) w in
    (Response (Data [("error", VStr ("Configuration error: " +:+ msg))])
       HTTP_500_INTERNAL_SERVER_ERROR, w)
  | Exception msg =>
    let w := logger ERROR ("Unexpected error during payment verification: " +:+ msg) w in
    (Response (Data [("error", VStr ("Unexpected error: " +:+ msg))])
       HTTP_500_INTERNAL_SERVER_ERROR, w)
  end.

(** The body of [PaymentViewSet.verify_status], after
    [payment = self.get_object()]. *)
Definition verify_status_payment (chapa_client : ChapaAPIClient) (user : User.t)
    (payment : Payment.t) (w : World) : result * World :=
  if negb (User.eqb (Booking.guest (Payment.booking payment)) user)
     && negb (User.eqb (Listing.host (Booking.listing (Payment.booking payment))) user) then
    (PermissionDenied "You can only verify your own payments.", w)
  else if negb (truthy (Payment.chapa_reference payment)) then
    (Response (Data [("detail", VStr "Payment has not been initiated yet.")])
       HTTP_400_BAD_REQUEST, w)
  else
    match chapa_new chapa_client with
    | Some e => verify_status_except e w
    | None =>
      let reference := get_default (Payment.chapa_reference payment) "" in
      let w := call_chapa (VerifyCall reference) w in
      match chapa_verify_payment chapa_client reference with
      | Raises e => verify_status_except e w
      | Returns result =>
        if ver_success result then
          let chapa_status := lower (get_default (ver_status result) "pending") in
          if String.eqb chapa_status "success" then
            let '(payment, w) :=
              update_payment_status payment "completed"
                None (ver_reference result) (ver_method result) None w in
            let w := delay (confirmation_task payment result) w in
            (Response
               (Data [("success", VBool true);
                      ("status", VStr "completed");
                      ("message", VStr "Payment completed successfully");
                      ("amount", VStr (str_opt (ver_amount result)));
                      ("received_amount", VStr (str_opt (ver_received_amount result)));
                      ("transaction_id", opt_value (ver_reference result))])
               HTTP_200_OK, w)
          else if String.eqb chapa_status "failed" then
            let '(payment, w) :=
              update_payment_status payment "failed"
                None None None (Some "Payment failed on Chapa") w in
            let w := delay (failure_task payment) w in
            (Response
               (Data [("success", VBool false);
                      ("status", VStr "failed");
                      ("message", VStr "Payment failed")])
               HTTP_400_BAD_REQUEST, w)
          else
            (Response
               (Data [("success", VBool true);
                      ("status", VStr "pending");
                      ("message", VStr "Payment is still pending")])
               HTTP_200_OK, w)
        else
          (Response
             (Data [("success", VBool false);
                    ("error", VStr (get_default (ver_error result) "Failed to verify payment"))])
             HTTP_400_BAD_REQUEST, w)
      end
    end.

(** [PaymentViewSet.verify_status] *)
Definition verify_status (chapa_client : ChapaAPIClient) (user : User.t) (pk : string)
    (w : World) : result * World :=
  match get_payment w user pk with
  | None => (Http404, w)
  | Some payment => verify_status_payment chapa_client user payment w
  end.

(** The single [except Exception] clause of [verify]. *)
Definition verify_except (e : exn) (w : World) : result * World :=
  let w := logger ERROR ("Error verifying payment: " +:+ str_exn e) w in
  (Response (Data [("error", VStr (str_exn e))]) HTTP_500_INTERNAL_SERVER_ERROR, w).

(** What [Payment.objects.get(payment_id=tx_ref)] comes to. *)
Inductive got :=
| Found (payment : Payment.t)
| NotFound                (* [Payment.DoesNotExist] *)
| Invalid.                (* [ValidationError]: the text spells no identifier *)

(** [Payment.objects.get(payment_id=tx_ref)]. The primary keys are
    identifiers the views read through [str(...)], and a table is keyed by
    that text. A [tx_ref] that is the key of a row as it stands names that
    row; any other one goes through the conversion of the key field,
    [uuid_text], which gives the text of the identifier it spells or refuses
    it (the field is declared in models.py, which is not under src/). *)
Definition payment_objects_get (w : World) (tx_ref : string) : got :=
  match payments w !! tx_ref with
  | Some payment => Found payment
  | None =>
    match uuid_text w tx_ref with
    | None => Invalid
    | Some key =>
      match payments w !! key with
      | Some payment => Found payment
      | None => NotFound
      end
    end
  end.

(** [PaymentViewSet.verify], the callback of the gateway, open to anyone;
    [tx_ref] is [request.data.get('tx_ref')]. The lookup stands before the
    [try], and of what it raises only [Payment.DoesNotExist] is caught. *)
Definition verify (chapa_client : ChapaAPIClient) (tx_ref : option string) (w : World)
    : result * World :=
  if negb (truthy tx_ref) then
    (Response (Data [("error", VStr "tx_ref parameter is required")]) HTTP_400_BAD_REQUEST, w)
  else
    let tx_ref := get_default tx_ref "" in
    match payment_objects_get w tx_ref with
    | Invalid => (InvalidUUID tx_ref, w)
    | NotFound => (Response (Data [("error", VStr "Payment not found")]) HTTP_404_NOT_FOUND, w)
    | Found payment =>
      match chapa_new chapa_client with
      | Some e => verify_except e w
      | None =>
        let reference := opt_or (Payment.chapa_reference payment) tx_ref in
        let w := call_chapa (VerifyCall reference) w in
        match chapa_verify_payment chapa_client reference with
        | Raises e => verify_except e w
        | Returns result =>
          if ver_success result then
            let chapa_status := lower (get_default (ver_status result) "pending") in
            if String.eqb chapa_status "success" then
              let '(payment, w) :=
                update_payment_status payment "completed"
                  None (ver_reference result) (ver_method result) None w in
              let w := delay (confirmation_task payment result) w in
              (Response
                 (Data [("success", VBool true);
                        ("status", VStr "completed");
                        ("message", VStr "Payment verified successfully")])
                 HTTP_200_OK, w)
            else if String.eqb chapa_status "failed" then
              let '(payment, w) :=
                update_payment_status payment "failed" None None None (Some "Payment failed") w in
              (Response
                 (Data [("success", VBool false);
                        ("status", VStr "failed");
                        ("message", VStr "Payment failed")])
                 HTTP_400_BAD_REQUEST, w)
            else
              (Response
                 (Data [("success", VBool true);
                        ("status", VStr "pending");
                        ("message", VStr "Payment verification pending")])
                 HTTP_200_OK, w)
          else
            (Response (Data [("error", VStr (get_default (ver_error result) "Verification failed"))])
               HTTP_400_BAD_REQUEST, w)
        end
      end
    end.

(** ** The e-mail tasks of [tasks.py] *)

(** [@shared_task(bind=True, max_retries=3)], the same for the three tasks. *)
Definition max_retries : nat := 3.

(** [60 * (2 ** self.request.retries)], in seconds. *)
Definition countdown (retries : nat) : Z := 60 * 2 ^ Z.of_nat retries.

Definition task_guest_email (t : Task) : string :=
  match t with
  | send_booking_confirmation_email_task _ guest_email _ _ _ _ _ _ => guest_email
  | send_payment_confirmation_email_task _ guest_email _ _ _ _ _ _ _ _ _ => guest_email
  | send_payment_failure_email_task guest_email _ _ _ _ => guest_email
  end.

Definition task_booking_id (t : Task) : string :=
  match t with
  | send_booking_confirmation_email_task booking_id _ _ _ _ _ _ _ => booking_id
  | send_payment_confirmation_email_task booking_id _ _ _ _ _ _ _ _ _ _ => booking_id
  | send_payment_failure_email_task _ _ _ booking_id _ => booking_id
  end.

Definition task_subject (t : Task) : string :=
  match t with
  | send_booking_confirmation_email_task _ _ _ _ _ _ _ _ => "Booking Confirmation - ALX Travel App"
  | send_payment_confirmation_email_task _ _ _ _ _ _ _ _ _ _ _ => "Payment Confirmation - ALX Travel App"
  | send_payment_failure_email_task _ _ _ _ _ => "Payment Failed - ALX Travel App"
  end.

(** The record written after [send_mail] returned. *)
Definition task_info (t : Task) : string :=
  match t with
  | send_booking_confirmation_email_task _ _ _ _ _ _ _ _ => "Booking confirmation email sent to "
  | send_payment_confirmation_email_task _ _ _ _ _ _ _ _ _ _ _ => "Payment confirmation email sent to "
  | send_payment_failure_email_task _ _ _ _ _ => "Payment failure email sent to "
  end +:+ task_guest_email t +:+ " for booking " +:+ task_booking_id t.

(** The record written in the [except] clause. *)
Definition task_error (t : Task) (exc : string) : string :=
  match t with
  | send_booking_confirmation_email_task _ _ _ _ _ _ _ _ => "Error sending booking confirmation email: "
  | send_payment_confirmation_email_task _ _ _ _ _ _ _ _ _ _ _ => "Error sending payment confirmation email: "
  | send_payment_failure_email_task _ _ _ _ _ => "Error sending payment failure email: "
  end +:+ exc.

(** How the life of a task ends: the value it returned, or the exception
    the worker is left with once [self.retry] re-raises it. *)
Inductive final :=
| Sent (ret : string)
| GaveUp (exc : string).

Record TaskRun := {
  run_log : list (level * string);   (* records written by the task *)
  run_countdowns : list Z;           (* the delay asked for at each retry *)
  run_final : final }.

(** A task on a Celery worker, from its execution number [retries] on.
    [send_mail n] says what [send_mail] does in the execution whose
    [self.request.retries] is [n]: [None] when it returns, [Some exc] when
    it raises. [self.retry(exc=exc, countdown=c)] schedules the next
    execution while [retries < max_retries] and re-raises [exc] otherwise
    (Celery's [Task.retry]). *)
Equations? run_task (t : Task) (send_mail : nat -> option string) (retries : nat) : TaskRun
  by wf (max_retries - retries)%nat lt :=
  run_task t send_mail retries with send_mail retries => {
    | None :=
      {| run_log := [(INFO, task_info t)];
         run_countdowns := [];
         run_final := Sent ("Email sent successfully to " +:+ task_guest_email t) |};
    | Some exc with lt_dec retries max_retries => {
      | left _ :=
        let rest := run_task t send_mail (S retries) in
        {| run_log := (ERROR, task_error t exc) :: run_log rest;
           run_countdowns := countdown retries :: run_countdowns rest;
           run_final := run_final rest |};
      | right _ :=
        {| run_log := [(ERROR, task_error t exc)];
           run_countdowns := [];
           run_final := GaveUp exc |} } }.
Proof. unfold max_retries in *. lia. Qed.

(** The worker takes the oldest task of the queue and runs it to its end;
    what the task logged joins the log. Nothing else of the state is in the
    task's reach. *)
Definition worker (send_mail : nat -> option string) (w : World) : World :=
  match celery_queue w with
  | [] => w
  | t :: queue =>
    {| listings := listings w; bookings := bookings w; payments := payments w;
       celery_queue := queue; chapa_calls := chapa_calls w;
       log := log w ++ run_log (run_task t send_mail 0);
       uuid4 := uuid4 w; uuid_next := uuid_next w; DEFAULT_CURRENCY := DEFAULT_CURRENCY w;
     uuid_text := uuid_text w |}
  end.

(** The number of [ERROR] records among log records. *)
Definition count_errors (l : list (level * string)) : nat :=
  length (List.filter (fun r => match fst r with ERROR => true | INFO => false end) l).

(** ** A small system to run the views on *)

Module Sample.
Definition hana : User.t :=
  {| User.pk := 1; User.username := "hana"; User.first_name := "Hana";
     User.email := "hana@example.com" |}.
Definition gebre : User.t :=
  {| User.pk := 2; User.username := "gebre"; User.first_name := "";
     User.email := "gebre@example.com" |}.
Definition marta : User.t :=
  {| User.pk := 3; User.username := "marta"; User.first_name := "Marta";
     User.email := "marta@example.com" |}.

(** A listing of [hana] at 100 a night. *)
Definition villa : Listing.t :=
  {| Listing.listing_id := "L1"; Listing.host := hana; Listing.title := "Lake villa";
     Listing.location := "Bahir Dar"; Listing.price_per_night := units 100 |}.

(** [gebre]'s booking of it, three nights in June 2025. *)
Definition stay (status : string) : Booking.t :=
  {| Booking.booking_id := "B1"; Booking.guest := gebre; Booking.listing := villa;
     Booking.check_in_date := ymd 2025 6 1; Booking.check_out_date := ymd 2025 6 4;
     Booking.total_price := units 300; Booking.status := status |}.

Definition bill (status : string) (chapa_reference : option string) : Payment.t :=
  {| Payment.payment_id := "P1"; Payment.booking := stay "pending";
     Payment.amount := units 300; Payment.currency := "ETB"; Payment.status := status;
     Payment.chapa_reference := chapa_reference; Payment.transaction_id := None;
     Payment.payment_method := None; Payment.error_message := None |}.

Definition uuids (n : nat) : string :=
  match n with
  | O => "B1"
  | 1%nat => "P1"
  | _ => "X"
  end.

(** The identifiers of this small system are spelled with two characters. *)
Definition identifier (s : string) : option string :=
  if (String.length s =? 2)%nat then Some s else None.

(** Only the listing is there. *)
Definition empty_world : World :=
  {| listings := {[ "L1" := villa ]}; bookings := ∅; payments := ∅;
     celery_queue := []; chapa_calls := []; log := [];
     uuid4 := uuids; uuid_next := 0; DEFAULT_CURRENCY := "ETB";
     uuid_text := identifier |}.

(** The booking and its payment are there. *)
Definition world (booking_status payment_status : string) (chapa_reference : option string)
    : World :=
  {| listings := {[ "L1" := villa ]};
     bookings := {[ "B1" := stay booking_status ]};
     payments := {[ "P1" := bill payment_status chapa_reference ]};
     celery_queue := []; chapa_calls := []; log := [];
     uuid4 := uuids; uuid_next := 2; DEFAULT_CURRENCY := "ETB";
     uuid_text := identifier |}.

Definition request : BookingRequest :=
  {| req_listing_id := Some "L1"; req_check_in_date := ymd 2025 6 1;
     req_check_out_date := ymd 2025 6 4; req_total_price := None |}.

(** The answer [{success: true, status: "success", reference: "TX1"}] of the gateway. *)
Definition verified : VerifyResult :=
  {| ver_success := true; ver_status := Some "success"; ver_reference := Some "TX1";
     ver_method := Some "telebirr"; ver_amount := Some "300.00";
     ver_received_amount := Some "300.00"; ver_error := None |}.

Definition still_pending : VerifyResult :=
  {| ver_success := true; ver_status := Some "pending"; ver_reference := None;
     ver_method := None; ver_amount := None; ver_received_amount := None;
     ver_error := None |}.

Definition refused : VerifyResult :=
  {| ver_success := false; ver_status := None; ver_reference := None;
     ver_method := None; ver_amount := None; ver_received_amount := None;
     ver_error := Some "Invalid transaction" |}.

Definition checkout : InitiateResult :=
  {| init_success := true; init_checkout_url := Some "https://checkout.chapa.co/pay/abc";
     init_reference := Some "REF1"; init_error := None |}.

Definition declined : InitiateResult :=
  {| init_success := false; init_checkout_url := None; init_reference := None;
     init_error := Some "Invalid currency" |}.

(** A configured client whose methods give these answers. *)
Definition client (i : InitiateResult) (v : VerifyResult) : ChapaAPIClient :=
  {| chapa_new := None;
     chapa_initiate_payment := fun _ _ => Returns i;
     chapa_verify_payment := fun _ => Returns v |}.

(** A client whose construction raises, the secret key being absent. *)
Definition unconfigured : ChapaAPIClient :=
  {| chapa_new := Some (ValueError "CHAPA_SECRET_KEY is not set");
     chapa_initiate_payment := fun _ _ => Returns checkout;
     chapa_verify_payment := fun _ => Returns verified |}.
End Sample.

(** * Properties *)

(** ** Reading an answer *)

(** The answer is a response with a 2xx status. *)
Definition succeeded (r : result) : bool :=
  match r with
  | Response _ status => (200 <=? status) && (status <? 300)
  | _ => false
  end.

(** [Forbidden]: the view raised [PermissionDenied]. *)
Definition forbidden (r : result) : bool :=
  match r with
  | PermissionDenied _ => true
  | _ => false
  end.

(** [InvalidTransition]: the view answered 400 with a [detail] naming the
    status that does not allow the transition. *)
Definition invalid_transition (r : result) : bool :=
  match r with
  | Response (Data [("detail", VStr _)]) 400 => true
  | _ => false
  end.

(** The text under the key [error] of an answer with a 4xx or 5xx status. *)
Definition error_of (r : result) : option string :=
  match r with
  | Response (Data kv) status =>
    if 400 <=? status then
      match List.find (fun kv => String.eqb (fst kv) "error") kv with
      | Some (_, VStr msg) => Some msg
      | _ => None
      end
    else None
  | _ => None
  end.

(** The status code of a response. *)
Definition status_code (r : result) : option Z :=
  match r with
  | Response _ status => Some status
  | _ => None
  end.

(** The confirmation e-mails waiting on the queue. *)
Definition success_notifications (w : World) : list Task :=
  List.filter
    (fun t => match t with send_payment_confirmation_email_task _ _ _ _ _ _ _ _ _ _ _ => true | _ => false end)
    (celery_queue w).

(** ** Shared lemmas *)

Lemma str_in_pending_confirmed (s : string) :
  str_in s ["pending"; "confirmed"] = true <-> s = "pending" \/ s = "confirmed".
Proof.
  unfold str_in; simpl. rewrite !orb_true_iff, !String.eqb_eq. intuition congruence.
Qed.

Lemma lookup_save_payment (p : Payment.t) (w : World) :
  payments (save_payment p w) !! Payment.payment_id p = Some p.
Proof. simpl. apply lookup_insert_eq. Qed.

Lemma payment_objects_get_key (w : World) (key : string) (payment : Payment.t) :
  payments w !! key = Some payment -> payment_objects_get w key = Found payment.
Proof. intros Hrow. unfold payment_objects_get. rewrite Hrow. reflexivity. Qed.

Lemma payment_objects_get_found (w : World) (tx_ref : string) (payment : Payment.t) :
  payment_objects_get w tx_ref = Found payment -> exists key, payments w !! key = Some payment.
Proof.
  unfold payment_objects_get. destruct (payments w !! tx_ref) as [p |] eqn:Hrow.
  - intros Heq. injection Heq as <-. eauto.
  - destruct (uuid_text w tx_ref) as [key |]; [| discriminate].
    destruct (payments w !! key) as [p |] eqn:Hkey; [| discriminate].
    intros Heq. injection Heq as <-. eauto.
Qed.

Lemma lookup_save_booking (b : Booking.t) (w : World) :
  bookings (save_booking b w) !! Booking.booking_id b = Some b.
Proof. simpl. apply lookup_insert_eq. Qed.

(** ** Booking creation *)

(** The guard on the dates is the validation's: [perform_create] alone
    accepts any pair of dates and prices the stay by their difference. *)
Example perform_create_has_no_date_guard :
  let req := {| req_listing_id := Some "L1"; req_check_in_date := ymd 2025 6 4;
                req_check_out_date := ymd 2025 6 1; req_total_price := None |} in
  Booking.total_price <$> fst (perform_create Sample.gebre req Sample.empty_world)
  = Some (units (-300)).
Proof. reflexivity. Qed.

(** C3. A request to create a booking whose check-out date is not after its
    check-in date is refused with [InvalidRange], and the state is left as
    it was: no booking row and no payment row is written. *)
Theorem create_invalid_range (user : User.t) (req : BookingRequest) (w : World) :
  req_check_out_date req <= req_check_in_date req ->
  create user req w = (ValidationError "InvalidRange", w).
Proof.
  intros Hle. unfold create, is_valid.
  destruct (Z.leb_spec (req_check_out_date req) (req_check_in_date req)); [reflexivity | lia].
Qed.

Lemma create_invalid_range_witness :
  let req := {| req_listing_id := Some "L1"; req_check_in_date := ymd 2025 6 4;
                req_check_out_date := ymd 2025 6 4; req_total_price := None |} in
  req_check_out_date req <= req_check_in_date req
  /\ create Sample.gebre req Sample.empty_world = (ValidationError "InvalidRange", Sample.empty_world).
Proof.
  split; [vm_compute; discriminate | apply create_invalid_range; vm_compute; discriminate].
Defined.

(** C2. When a booking is created without a total price (and its dates are
    at least one night apart), its total price is the listing's price per
    night times the number of nights, and the payment created with it has
    that amount and status [pending]. *)
Theorem create_total_price (user : User.t) (req : BookingRequest) (w : World)
    (listing : Listing.t) :
  get_listing w (req_listing_id req) = Some listing ->
  req_total_price req = None ->
  1 <= days (req_check_out_date req) (req_check_in_date req) ->
  exists booking payment w',
    create user req w = (Response (BookingData booking) HTTP_201_CREATED, w')
    /\ Booking.total_price booking
       = Listing.price_per_night listing * days (req_check_out_date req) (req_check_in_date req)
    /\ Booking.status booking = "pending"
    /\ bookings w' !! Booking.booking_id booking = Some booking
    /\ payments w' !! Payment.payment_id payment = Some payment
    /\ Payment.booking payment = booking
    /\ Payment.amount payment = Booking.total_price booking
    /\ Payment.status payment = "pending".
Proof.
  intros Hlisting Hprice Hnights. unfold days in Hnights.
  unfold create, is_valid.
  destruct (Z.leb_spec (req_check_out_date req) (req_check_in_date req)) as [Hle | _]; [lia |].
  unfold perform_create. rewrite Hlisting, Hprice. cbn [not_total_price].
  destruct (new_uuid w) as [bid w1] eqn:Hbid.
  destruct (create_payment_for_booking _ (save_booking _ w1)) as [payment w2] eqn:Hpay.
  eexists _, payment, w2. split; [reflexivity |].
  unfold create_payment_for_booking in Hpay.
  destruct (new_uuid (save_booking _ w1)) as [pid w3] eqn:Hpid.
  injection Hpay as <- <-.
  injection Hpid as <- <-.
  repeat split; try reflexivity.
  all: apply lookup_insert_eq.
Qed.

(** The scenario of the spec: 2025-06-01 to 2025-06-04 at 100 a night gives
    300, for the booking and for its payment. *)
Lemma create_total_price_witness :
  exists booking payment w',
    create Sample.gebre Sample.request Sample.empty_world
    = (Response (BookingData booking) HTTP_201_CREATED, w')
    /\ Booking.total_price booking = units 300
    /\ Booking.status booking = "pending"
    /\ bookings w' !! Booking.booking_id booking = Some booking
    /\ payments w' !! Payment.payment_id payment = Some payment
    /\ Payment.booking payment = booking
    /\ Payment.amount payment = Booking.total_price booking
    /\ Payment.status payment = "pending".
Proof.
  apply (create_total_price Sample.gebre Sample.request Sample.empty_world Sample.villa).
  - reflexivity.
  - reflexivity.
  - vm_compute. discriminate.
Defined.

(** ** Starting a payment *)

(** C7. The guest starts a [pending] payment and the gateway client
    answers. If the answer is a success, the payment is saved with the
    gateway's reference and status [pending], and the caller receives the
    checkout URL, the payment's identifier, its amount and its currency. If
    the answer is a failure, the payment is saved with status [failed] and
    the gateway's error message, and the caller receives that error. *)
Theorem initiate_payment_gateway (chapa_client : ChapaAPIClient) (user : User.t)
    (booking : Booking.t) (w : World) (payment : Payment.t) (w1 : World)
    (result : InitiateResult) :
  User.eqb (Booking.guest booking) user = true ->
  payment_of_booking booking w = (payment, w1) ->
  Payment.status payment = "pending" ->
  chapa_new chapa_client = None ->
  chapa_initiate_payment chapa_client payment booking = Returns result ->
  let answer := initiate_payment_booking chapa_client user booking w in
  let stored := payments (snd answer) !! Payment.payment_id payment in
  let error_msg := get_default (init_error result) "Unknown error" in
  (init_success result = true ->
     fst answer
     = Response
         (Data [("success", VBool true);
                ("checkout_url", opt_value (init_checkout_url result));
                ("payment_id", VStr (Payment.payment_id payment));
                ("amount", VDecimal (Payment.amount payment));
                ("currency", VStr (Payment.currency payment))])
         HTTP_200_OK
     /\ exists p,
          stored = Some p
          /\ Payment.status p = "pending"
          /\ Payment.chapa_reference p
             = kwarg (init_reference result) (Payment.chapa_reference payment)
          /\ (forall reference,
                init_reference result = Some reference ->
                Payment.chapa_reference p = Some reference))
  /\ (init_success result = false ->
        fst answer
        = Response (Data [("success", VBool false); ("error", VStr error_msg)])
            HTTP_400_BAD_REQUEST
        /\ error_of (fst answer) = Some error_msg
        /\ exists p,
             stored = Some p
             /\ Payment.status p = "failed"
             /\ Payment.error_message p = Some error_msg).
Proof.
  intros Hguest Hpayment Hpending Hnew Hcall answer stored error_msg.
  subst answer stored error_msg. unfold initiate_payment_booking.
  rewrite Hguest, Hpayment, Hpending, Hnew, Hcall. cbn [negb String.eqb].
  split; intros Hsuccess; rewrite Hsuccess; cbn.
  - split; [reflexivity |]. eexists. split; [apply lookup_insert_eq |].
    repeat split. intros reference Href. cbn. rewrite Href. reflexivity.
  - repeat split. eexists. split; [apply lookup_insert_eq |]. repeat split.
Qed.

Lemma initiate_payment_gateway_witness :
  let w := Sample.world "pending" "pending" None in
  let paid := initiate_payment_booking (Sample.client Sample.checkout Sample.verified)
                Sample.gebre (Sample.stay "pending") w in
  let lost := initiate_payment_booking (Sample.client Sample.declined Sample.verified)
                Sample.gebre (Sample.stay "pending") w in
  fst paid
  = Response
      (Data [("success", VBool true);
             ("checkout_url", VStr "https://checkout.chapa.co/pay/abc");
             ("payment_id", VStr "P1");
             ("amount", VDecimal (units 300));
             ("currency", VStr "ETB")])
      HTTP_200_OK
  /\ payments (snd paid) !! "P1" = Some (Sample.bill "pending" (Some "REF1"))
  /\ fst lost
     = Response (Data [("success", VBool false); ("error", VStr "Invalid currency")])
         HTTP_400_BAD_REQUEST
  /\ Payment.status <$> payments (snd lost) !! "P1" = Some "failed".
Proof.
  intros w paid lost. subst paid lost.
  pose proof (initiate_payment_gateway (Sample.client Sample.checkout Sample.verified)
                Sample.gebre (Sample.stay "pending") w (Sample.bill "pending" None) w
                Sample.checkout eq_refl eq_refl eq_refl eq_refl eq_refl) as [Hpaid _].
  pose proof (initiate_payment_gateway (Sample.client Sample.declined Sample.verified)
                Sample.gebre (Sample.stay "pending") w (Sample.bill "pending" None) w
                Sample.declined eq_refl eq_refl eq_refl eq_refl eq_refl) as [_ Hlost].
  destruct (Hpaid eq_refl) as [Hanswer _].
  destruct (Hlost eq_refl) as [Hanswer' _].
  split; [exact Hanswer |]. split; [reflexivity |]. split; [exact Hanswer' | reflexivity].
Defined.

(** ** Verifying a payment *)

(** What the [try] block of a verification view gets from the gateway for a
    reference: the result of [verify_payment], or what was raised on the
    way, by [ChapaAPIClient()] or by the method. *)
Definition ask (chapa_client : ChapaAPIClient) (reference : string) : raises VerifyResult :=
  match chapa_new chapa_client with
  | Some e => Raises e
  | None => chapa_verify_payment chapa_client reference
  end.

(** The status the views read in a result. *)
Definition chapa_status (result : VerifyResult) : string :=
  lower (get_default (ver_status result) "pending").

(** The gateway gave a terminal verdict: a successful result whose status is
    [success] or [failed]. *)
Definition terminal_verdict (chapa_client : ChapaAPIClient) (reference : string) : bool :=
  match ask chapa_client reference with
  | Returns result =>
    ver_success result
    && (String.eqb (chapa_status result) "success" || String.eqb (chapa_status result) "failed")
  | Raises _ => false
  end.

Lemma configuration_error_distinct (msg msg' : string) :
  "Configuration error: " +:+ msg <> "Unexpected error: " +:+ msg'.
Proof. cbn. discriminate. Qed.

(** The body of [verify_status] when the gateway gives no verdict. No
    payment row, no booking row and no queued notification changes. A status
    still pending is reported as [pending]; an unsuccessful result is
    answered 400 with the gateway's error; a [ValueError] is answered 500
    with an error that starts [Configuration error:] and is logged; any
    other exception is answered 500 with an error that starts [Unexpected
    error:], which no [Configuration error:] text equals. *)
Lemma verify_status_payment_without_verdict (chapa_client : ChapaAPIClient) (user : User.t)
    (payment : Payment.t) (w : World) :
  User.eqb (Booking.guest (Payment.booking payment)) user
  || User.eqb (Listing.host (Booking.listing (Payment.booking payment))) user = true ->
  truthy (Payment.chapa_reference payment) = true ->
  let reference := get_default (Payment.chapa_reference payment) "" in
  let answer := verify_status_payment chapa_client user payment w in
  (terminal_verdict chapa_client reference = false ->
     payments (snd answer) = payments w
     /\ bookings (snd answer) = bookings w
     /\ celery_queue (snd answer) = celery_queue w)
  /\ (forall result,
        ask chapa_client reference = Returns result ->
        ver_success result = true ->
        chapa_status result <> "success" -> chapa_status result <> "failed" ->
        fst answer
        = Response
            (Data [("success", VBool true);
                   ("status", VStr "pending");
                   ("message", VStr "Payment is still pending")])
            HTTP_200_OK)
  /\ (forall result,
        ask chapa_client reference = Returns result ->
        ver_success result = false ->
        status_code (fst answer) = Some HTTP_400_BAD_REQUEST
        /\ error_of (fst answer) = Some (get_default (ver_error result) "Failed to verify payment"))
  /\ (forall msg,
        ask chapa_client reference = Raises (ValueError msg) ->
        status_code (fst answer) = Some HTTP_500_INTERNAL_SERVER_ERROR
        /\ error_of (fst answer) = Some ("Configuration error: " +:+ msg)
        /\ (ERROR, "Configuration error: " +:+ msg) ∈ log (snd answer))
  /\ (forall msg,
        ask chapa_client reference = Raises (Exception msg) ->
        status_code (fst answer) = Some HTTP_500_INTERNAL_SERVER_ERROR
        /\ error_of (fst answer) = Some ("Unexpected error: " +:+ msg)
        /\ (forall msg', error_of (fst answer) <> Some ("Configuration error: " +:+ msg'))).
Proof.
  intros Hparty Href reference answer. subst reference answer.
  unfold verify_status_payment, terminal_verdict, ask, chapa_status.
  apply orb_true_iff in Hparty.
  assert (negb (User.eqb (Booking.guest (Payment.booking payment)) user)
          && negb (User.eqb (Listing.host (Booking.listing (Payment.booking payment))) user)
          = false) as ->
    by (destruct Hparty as [-> | ->]; [reflexivity | apply andb_false_r]).
  rewrite Href. cbn [negb].
  destruct (chapa_new chapa_client) as [e |].
  - repeat split; try discriminate; destruct e; cbn; try reflexivity.
    all: intros; try discriminate.
    all: try match goal with H : Raises _ = Raises _ |- _ => injection H as -> end.
    all: repeat split; try reflexivity.
    all: try (apply list_elem_of_In, in_or_app; right; left; reflexivity).
    all: intros msg' Heq; injection Heq as Heq;
         exact (configuration_error_distinct _ _ (eq_sym Heq)).
  - destruct (chapa_verify_payment chapa_client _) as [result | e].
    + destruct (ver_success result) eqn:Hsuccess; cbn [andb].
      * destruct (String.eqb_spec (lower (get_default (ver_status result) "pending")) "success");
          destruct (String.eqb_spec (lower (get_default (ver_status result) "pending")) "failed");
          cbn [orb].
        all: repeat split; intros; try discriminate; try congruence; try reflexivity.
        all: match goal with H : Returns _ = Returns _ |- _ => injection H as <- end.
        all: congruence.
      * repeat split; intros; try discriminate; try reflexivity.
        all: match goal with H : Returns _ = Returns _ |- _ => injection H as <- end.
        all: try congruence; reflexivity.
    + repeat split; try discriminate; destruct e; cbn; try reflexivity.
      all: intros; try discriminate.
      all: try match goal with H : Raises _ = Raises _ |- _ => injection H as -> end.
      all: repeat split; try reflexivity.
      all: try (apply list_elem_of_In, in_or_app; right; left; reflexivity).
      all: intros msg' Heq; injection Heq as Heq;
         exact (configuration_error_distinct _ _ (eq_sym Heq)).
Qed.

(** The callback [verify] keeps the payment as it is, too, when the gateway
    gives no terminal verdict, but it has a single [except] clause: what a
    [ValueError] and what any other exception with the same text lead to is
    the same answer. *)
Lemma verify_without_verdict (chapa_client : ChapaAPIClient) (tx_ref : string)
    (payment : Payment.t) (w : World) :
  payments w !! tx_ref = Some payment ->
  terminal_verdict chapa_client (opt_or (Payment.chapa_reference payment) tx_ref) = false ->
  payments (snd (verify chapa_client (Some tx_ref) w)) = payments w
  /\ celery_queue (snd (verify chapa_client (Some tx_ref) w)) = celery_queue w.
Proof.
  intros Hrow. unfold verify, terminal_verdict, ask, chapa_status.
  destruct (truthy (Some tx_ref)); cbn [negb get_default]; [| split; reflexivity].
  rewrite (payment_objects_get_key w tx_ref payment Hrow).
  destruct (chapa_new chapa_client) as [e |]; [split; reflexivity |].
  destruct (chapa_verify_payment chapa_client _) as [result | e]; [| split; reflexivity].
  destruct (ver_success result); cbn [andb]; [| split; reflexivity].
  destruct (String.eqb _ "success"); [discriminate |].
  destruct (String.eqb _ "failed"); [discriminate |].
  split; reflexivity.
Qed.

Lemma verify_except_one_clause (msg : string) (w : World) :
  verify_except (ValueError msg) w = verify_except (Exception msg) w.
Proof. reflexivity. Qed.

(** C10. For a payment whose gateway reference is not set, [verify_status]
    leaves the state as it was, so it calls no method of the gateway
    client, and answers the guest or the host 400 with [Payment has not been
    initiated yet.]; the callback [verify], given the payment's key as
    [tx_ref], uses [tx_ref] as the reference and calls the configured
    client's [verify_payment] with it. *)
Theorem verify_without_reference (chapa_client : ChapaAPIClient) (user : User.t)
    (payment : Payment.t) (tx_ref : string) (w : World) :
  truthy (Payment.chapa_reference payment) = false ->
  snd (verify_status_payment chapa_client user payment w) = w
  /\ (User.eqb (Booking.guest (Payment.booking payment)) user
      || User.eqb (Listing.host (Booking.listing (Payment.booking payment))) user = true ->
        fst (verify_status_payment chapa_client user payment w)
        = Response (Data [("detail", VStr "Payment has not been initiated yet.")])
            HTTP_400_BAD_REQUEST)
  /\ opt_or (Payment.chapa_reference payment) tx_ref = tx_ref
  /\ (truthy (Some tx_ref) = true ->
      payments w !! tx_ref = Some payment ->
      chapa_new chapa_client = None ->
        chapa_calls (snd (verify chapa_client (Some tx_ref) w))
        = (chapa_calls w ++ [VerifyCall tx_ref])%list).
Proof.
  intros Href.
  assert (opt_or (Payment.chapa_reference payment) tx_ref = tx_ref) as Hor.
  { unfold truthy in Href. unfold opt_or, str_or.
    destruct (Payment.chapa_reference payment) as [s |]; [| reflexivity].
    destruct (String.eqb s ""); [reflexivity | discriminate]. }
  unfold verify_status_payment, verify. rewrite Href. cbn [negb].
  split; [| split; [| split]].
  - destruct (_ && _); reflexivity.
  - intros Hparty. apply orb_true_iff in Hparty.
    destruct Hparty as [-> | ->]; cbn [negb andb]; [reflexivity |].
    rewrite andb_false_r. reflexivity.
  - exact Hor.
  - intros -> Hrow Hnew. cbn [negb get_default].
    rewrite (payment_objects_get_key w tx_ref payment Hrow), Hnew, Hor.
    destruct (chapa_verify_payment chapa_client tx_ref) as [result | e]; [| reflexivity].
    destruct (ver_success result); [| reflexivity].
    destruct (String.eqb _ "success"); [reflexivity |].
    destruct (String.eqb _ "failed"); reflexivity.
Qed.

Lemma verify_without_reference_witness :
  let w := Sample.world "pending" "pending" None in
  let p := Sample.bill "pending" None in
  let c := Sample.client Sample.checkout Sample.verified in
  verify_status_payment c Sample.gebre p w
  = (Response (Data [("detail", VStr "Payment has not been initiated yet.")])
       HTTP_400_BAD_REQUEST, w)
  /\ chapa_calls (snd (verify c (Some "P1") w)) = [VerifyCall "P1"].
Proof.
  intros w p c.
  pose proof (verify_without_reference c Sample.gebre p "P1" w eq_refl)
    as (Hstate & Hanswer & _ & Hcall).
  split.
  - rewrite (surjective_pairing (verify_status_payment c Sample.gebre p w)).
    rewrite Hstate, (Hanswer eq_refl). reflexivity.
  - rewrite (Hcall eq_refl eq_refl eq_refl). reflexivity.
Defined.

(** ** Verifying twice *)

(** The row [update_payment_status] writes when the gateway reports success. *)
Definition paid (payment : Payment.t) (result : VerifyResult) : Payment.t :=
  updated_payment payment "completed" None (ver_reference result) (ver_method result) None.

Lemma kwarg_twice (new old : option string) : kwarg new (kwarg new old) = kwarg new old.
Proof. destruct new; reflexivity. Qed.

Lemma paid_again (payment : Payment.t) (r1 r2 : VerifyResult) :
  ver_reference r2 = ver_reference r1 -> ver_method r2 = ver_method r1 ->
  paid (paid payment r1) r2 = paid payment r1.
Proof.
  intros Href Hmethod. unfold paid, updated_payment. cbn. rewrite Href, Hmethod, !kwarg_twice.
  reflexivity.
Qed.

Lemma ask_returns (chapa_client : ChapaAPIClient) (reference : string) (result : VerifyResult) :
  ask chapa_client reference = Returns result ->
  chapa_new chapa_client = None /\ chapa_verify_payment chapa_client reference = Returns result.
Proof. unfold ask. destruct (chapa_new chapa_client); [discriminate | auto]. Qed.

(** One successful verification through [verify_status]: whatever the
    status of the payment, the row is written and a task is queued. *)
Lemma verify_status_payment_success (chapa_client : ChapaAPIClient) (user : User.t)
    (payment : Payment.t) (w : World) (result : VerifyResult) :
  payment_in_queryset user payment = true ->
  truthy (Payment.chapa_reference payment) = true ->
  ask chapa_client (get_default (Payment.chapa_reference payment) "") = Returns result ->
  ver_success result = true ->
  chapa_status result = "success" ->
  snd (verify_status_payment chapa_client user payment w)
  = delay (confirmation_task (paid payment result) result)
      (save_payment (paid payment result)
         (call_chapa (VerifyCall (get_default (Payment.chapa_reference payment) "")) w))
  /\ succeeded (fst (verify_status_payment chapa_client user payment w)) = true.
Proof.
  intros Hparty Href Hask Hsuccess Hstatus. apply ask_returns in Hask as [Hnew Hcall].
  unfold verify_status_payment. rewrite <- negb_orb.
  change (User.eqb _ user || User.eqb _ user) with (payment_in_queryset user payment).
  rewrite Hparty, Href, Hnew, Hcall, Hsuccess. cbn [negb].
  change (lower (get_default (ver_status result) "pending")) with (chapa_status result).
  rewrite Hstatus. split; reflexivity.
Qed.

(** One successful verification through the callback [verify]. *)
Lemma verify_success (chapa_client : ChapaAPIClient) (tx_ref : string)
    (payment : Payment.t) (w : World) (result : VerifyResult) :
  truthy (Some tx_ref) = true ->
  payments w !! tx_ref = Some payment ->
  ask chapa_client (opt_or (Payment.chapa_reference payment) tx_ref) = Returns result ->
  ver_success result = true ->
  chapa_status result = "success" ->
  snd (verify chapa_client (Some tx_ref) w)
  = delay (confirmation_task (paid payment result) result)
      (save_payment (paid payment result)
         (call_chapa (VerifyCall (opt_or (Payment.chapa_reference payment) tx_ref)) w))
  /\ succeeded (fst (verify chapa_client (Some tx_ref) w)) = true.
Proof.
  intros Htx Hrow Hask Hsuccess Hstatus. apply ask_returns in Hask as [Hnew Hcall].
  unfold verify. rewrite Htx. cbn [negb get_default].
  rewrite (payment_objects_get_key w tx_ref payment Hrow), Hnew, Hcall, Hsuccess.
  change (lower (get_default (ver_status result) "pending")) with (chapa_status result).
  rewrite Hstatus. split; reflexivity.
Qed.

(** C1, as the code has it. Two verifications in a row of a payment that has
    a gateway reference, the gateway reporting success both times, through
    [verify_status] or through the callback [verify]: each one writes the
    payment as [completed] with the transaction the gateway reports and
    queues a confirmation task, whatever the payment's status was. So two
    tasks join the queue. The row after the second verification is the row
    after the first when the gateway reports the same reference and method. *)
Theorem verify_twice_queues_two (c1 c2 : ChapaAPIClient) (user : User.t) (pk : string)
    (w : World) (payment : Payment.t) (r1 r2 : VerifyResult) :
  payments w !! pk = Some payment ->
  Payment.payment_id payment = pk ->
  payment_in_queryset user payment = true ->
  truthy (Some pk) = true ->
  truthy (Payment.chapa_reference payment) = true ->
  ask c1 (get_default (Payment.chapa_reference payment) "") = Returns r1 ->
  ver_success r1 = true -> chapa_status r1 = "success" ->
  ask c2 (get_default (Payment.chapa_reference payment) "") = Returns r2 ->
  ver_success r2 = true -> chapa_status r2 = "success" ->
  let p1 := paid payment r1 in
  let p2 := paid p1 r2 in
  let tasks := [confirmation_task p1 r1; confirmation_task p2 r2] in
  (let w1 := snd (verify_status c1 user pk w) in
   let w2 := snd (verify_status c2 user pk w1) in
   payments w1 !! pk = Some p1
   /\ payments w2 !! pk = Some p2
   /\ celery_queue w2 = (celery_queue w ++ tasks)%list)
  /\ (let w1 := snd (verify c1 (Some pk) w) in
      let w2 := snd (verify c2 (Some pk) w1) in
      payments w1 !! pk = Some p1
      /\ payments w2 !! pk = Some p2
      /\ celery_queue w2 = (celery_queue w ++ tasks)%list)
  /\ Payment.status p1 = "completed"
  /\ Payment.status p2 = "completed"
  /\ (ver_reference r2 = ver_reference r1 -> ver_method r2 = ver_method r1 -> p2 = p1).
Proof.
  intros Hrow Hpk Hparty Htx Href Hask1 Hs1 Hst1 Hask2 Hs2 Hst2 p1 p2 tasks.
  assert (get_payment w user pk = Some payment) as Hget
    by (unfold get_payment; rewrite Hrow, Hparty; reflexivity).
  assert (opt_or (Payment.chapa_reference payment) pk
          = get_default (Payment.chapa_reference payment) "") as Hor.
  { unfold truthy in Href. unfold opt_or, str_or.
    destruct (Payment.chapa_reference payment) as [s |]; [| discriminate].
    destruct (String.eqb s ""); [discriminate | reflexivity]. }
  set (w1 := delay (confirmation_task p1 r1)
               (save_payment p1 (call_chapa
                  (VerifyCall (get_default (Payment.chapa_reference payment) "")) w))).
  assert (payments w1 !! pk = Some p1) as Hrow1
    by (cbn; rewrite Hpk; apply lookup_insert_eq).
  assert (snd (verify_status c1 user pk w) = w1) as Hv1.
  { unfold verify_status. rewrite Hget.
    apply verify_status_payment_success; assumption. }
  assert (snd (verify c1 (Some pk) w) = w1) as Hc1.
  { destruct (verify_success c1 pk payment w r1) as [-> _]; try assumption;
      rewrite Hor; [assumption | reflexivity]. }
  set (w2 := delay (confirmation_task p2 r2)
               (save_payment p2 (call_chapa
                  (VerifyCall (get_default (Payment.chapa_reference payment) "")) w1))).
  assert (snd (verify_status c2 user pk w1) = w2) as Hv2.
  { unfold verify_status, get_payment. rewrite Hrow1.
    change (payment_in_queryset user p1) with (payment_in_queryset user payment).
    rewrite Hparty. apply (verify_status_payment_success c2 user p1 w1 r2); assumption. }
  assert (snd (verify c2 (Some pk) w1) = w2) as Hc2.
  { destruct (verify_success c2 pk p1 w1 r2) as [-> _]; try assumption;
      cbn [p1 paid updated_payment Payment.chapa_reference kwarg]; rewrite Hor;
      [assumption | reflexivity]. }
  assert (payments w2 !! pk = Some p2) as Hrow2
    by (cbn; rewrite Hpk; apply lookup_insert_eq).
  assert (celery_queue w2 = (celery_queue w ++ tasks)%list) as Hqueue
    by (cbn; rewrite <- app_assoc; reflexivity).
  split; [| split; [| repeat split; [apply paid_again]]].
  - cbn zeta. rewrite Hv1, Hv2. auto.
  - cbn zeta. rewrite Hc1, Hc2. auto.
Qed.

Lemma verify_twice_queues_two_witness :
  let c := Sample.client Sample.checkout Sample.verified in
  let w := Sample.world "pending" "pending" (Some "REF1") in
  let w2 := snd (verify_status c Sample.gebre "P1" (snd (verify_status c Sample.gebre "P1" w))) in
  let p := paid (Sample.bill "pending" (Some "REF1")) Sample.verified in
  payments w2 !! "P1" = Some (paid p Sample.verified)
  /\ celery_queue w2
     = [confirmation_task p Sample.verified; confirmation_task (paid p Sample.verified) Sample.verified]
  /\ paid p Sample.verified = p.
Proof.
  intros c w w2 p. subst w2 p.
  pose proof (verify_twice_queues_two c c Sample.gebre "P1" w
                (Sample.bill "pending" (Some "REF1")) Sample.verified Sample.verified
                eq_refl eq_refl eq_refl eq_refl eq_refl eq_refl eq_refl eq_refl
                eq_refl eq_refl eq_refl) as ((_ & Hrow & Hqueue) & _ & _ & _ & Hsame).
  split; [exact Hrow |]. split; [exact Hqueue |]. apply Hsame; reflexivity.
Defined.

(** C1, as the spec has it, fails. The gateway reports the transaction of
    the spec's scenario twice, and the guest, or the gateway's callback,
    verifies twice: the first verification completes the payment and queues
    one confirmation, and the second, on a payment already [completed],
    queues another one, so two confirmations were triggered, not one. When
    the second report names another transaction, the completed row is
    written over with it. *)
Lemma verify_twice_not_idempotent :
  let c := Sample.client Sample.checkout Sample.verified in
  let w0 := Sample.world "pending" "pending" (Some "REF1") in
  let w1 := snd (verify_status c Sample.gebre "P1" w0) in
  let w2 := snd (verify_status c Sample.gebre "P1" w1) in
  let w2' := snd (verify c (Some "P1") (snd (verify c (Some "P1") w0))) in
  let other :=
    {| ver_success := true; ver_status := Some "success"; ver_reference := Some "TX2";
       ver_method := Some "cbe"; ver_amount := None; ver_received_amount := None;
       ver_error := None |} in
  let w3 := snd (verify_status (Sample.client Sample.checkout other) Sample.gebre "P1" w1) in
  (Payment.status <$> payments w1 !! "P1" = Some "completed"
   /\ length (success_notifications w1) = 1%nat)
  /\ (length (success_notifications w2) = 2%nat
      /\ length (success_notifications w2) <> 1%nat)
  /\ (length (success_notifications w2') = 2%nat
      /\ length (success_notifications w2') <> 1%nat)
  /\ (Payment.transaction_id <$> payments w1 !! "P1" = Some (Some "TX1")
      /\ Payment.transaction_id <$> payments w3 !! "P1" = Some (Some "TX2")).
Proof.
  cbv zeta. repeat split; try reflexivity; vm_compute; discriminate.
Qed.

(** ** The e-mail tasks *)

Lemma countdown_increasing (retries : nat) : countdown retries < countdown (S retries).
Proof.
  unfold countdown. rewrite Nat2Z.inj_succ, Z.pow_succ_r by lia.
  assert (0 < 2 ^ Z.of_nat retries) by (apply Z.pow_pos_nonneg; lia). lia.
Qed.

(** What a run from execution [retries] on leaves behind. *)
Lemma run_task_from (t : Task) (send_mail : nat -> option string) (retries : nat) :
  let run := run_task t send_mail retries in
  (length (run_countdowns run) <= max_retries - retries)%nat
  /\ run_countdowns run = countdown <$> seq retries (length (run_countdowns run))
  /\ match run_final run with
     | Sent _ => count_errors (run_log run) = length (run_countdowns run)
     | GaveUp _ =>
       count_errors (run_log run) = S (length (run_countdowns run))
       /\ (retries + length (run_countdowns run) >= max_retries)%nat
     end.
Proof.
  funelim (run_task t send_mail retries); cbn zeta.
  - cbn. repeat split. lia.
  - destruct H as (Hlen & Hcd & Hfin).
    cbn [run_countdowns run_log run_final length]. repeat split.
    + lia.
    + cbn [seq fmap list_fmap]. f_equal. exact Hcd.
    + unfold count_errors in *. cbn [List.filter fst length].
      destruct (run_final (run_task t send_mail (S retries))); lia.
  - cbn. repeat split; lia.
Qed.

(** C9. Whatever [send_mail] does, an e-mail task is run again at most
    [max_retries] = 3 times after a failure; the retry that follows the
    execution numbered [n] is asked for after [60 * 2 ^ n] seconds, a delay
    that grows with [n]; every failed execution writes an [ERROR] record;
    and the worker that runs the task changes the log and the queue only:
    the rows a lifecycle operation answers from are not in its reach. *)
Theorem email_task_bounded_retries (t : Task) (send_mail : nat -> option string) (w : World) :
  let run := run_task t send_mail 0 in
  let retried := length (run_countdowns run) in
  max_retries = 3%nat
  /\ (retried <= 3)%nat
  /\ (forall n, (n < retried)%nat -> run_countdowns run !! n = Some (60 * 2 ^ Z.of_nat n))
  /\ (forall n, countdown n < countdown (S n))
  /\ match run_final run with
     | Sent _ => count_errors (run_log run) = retried
     | GaveUp _ => retried = 3%nat /\ count_errors (run_log run) = 4%nat
     end
  /\ (payments (worker send_mail w) = payments w
      /\ bookings (worker send_mail w) = bookings w
      /\ chapa_calls (worker send_mail w) = chapa_calls w).
Proof.
  intros run retried.
  destruct (run_task_from t send_mail 0) as (Hlen & Hcd & Hfin).
  fold run in Hlen, Hcd, Hfin. fold retried in Hlen, Hcd, Hfin.
  change max_retries with 3%nat in Hlen, Hfin.
  split; [reflexivity |]. split; [lia |]. split; [| split; [| split]].
  - intros n Hn. rewrite Hcd, list_lookup_fmap, lookup_seq_lt by exact Hn. reflexivity.
  - exact countdown_increasing.
  - destruct (run_final run); [exact Hfin | lia].
  - unfold worker. destruct (celery_queue w); repeat split.
Qed.

(** A mail transport that is down for good: the task runs four times, waits
    60, 120 and 240 seconds in between, and is given up. *)
Lemma email_task_bounded_retries_witness :
  let t := failure_task (Sample.bill "failed" (Some "REF1")) in
  let down := fun _ : nat => Some "Connection refused" in
  let run := run_task t down 0 in
  run_countdowns run = [60; 120; 240]
  /\ run_final run = GaveUp "Connection refused"
  /\ count_errors (run_log run) = 4%nat
  /\ (length (run_countdowns run) <= 3)%nat.
Proof.
  intros t down run.
  pose proof (email_task_bounded_retries t down Sample.empty_world) as (_ & Hle & _).
  split; [reflexivity |]. split; [reflexivity |]. split; [reflexivity | exact Hle].
Defined.

(** ** The views behind [get_object] *)

(** [get_object] finds a booking for its guest and for the listing's host
    only, so the body of a view never meets another user: such a request is
    answered [Http404] and the state is left as it was. *)
Lemma get_booking_queryset (w : World) (user : User.t) (pk : string) (booking : Booking.t) :
  bookings w !! pk = Some booking ->
  get_booking w user pk = if booking_in_queryset user booking then Some booking else None.
Proof. intros Hrow. unfold get_booking. rewrite Hrow. reflexivity. Qed.

Lemma views_of_party (chapa_client : ChapaAPIClient) (w : World) (user : User.t) (pk : string)
    (booking : Booking.t) :
  bookings w !! pk = Some booking ->
  booking_in_queryset user booking = true ->
  cancel user pk w = cancel_booking user booking w
  /\ confirm user pk w = confirm_booking user booking w
  /\ initiate_payment chapa_client user pk w = initiate_payment_booking chapa_client user booking w.
Proof.
  intros Hrow Hparty. unfold cancel, confirm, initiate_payment.
  rewrite (get_booking_queryset w user pk booking Hrow), Hparty. repeat split.
Qed.

Lemma views_of_stranger (chapa_client : ChapaAPIClient) (w : World) (user : User.t) (pk : string)
    (booking : Booking.t) :
  bookings w !! pk = Some booking ->
  booking_in_queryset user booking = false ->
  cancel user pk w = (Http404, w)
  /\ confirm user pk w = (Http404, w)
  /\ initiate_payment chapa_client user pk w = (Http404, w).
Proof.
  intros Hrow Hparty. unfold cancel, confirm, initiate_payment.
  rewrite (get_booking_queryset w user pk booking Hrow), Hparty. repeat split.
Qed.

Example cancel_by_stranger :
  cancel Sample.marta "B1" (Sample.world "pending" "pending" None)
  = (Http404, Sample.world "pending" "pending" None).
Proof. reflexivity. Qed.

(** * The rest of the views, the synchronous e-mails and the deployment script *)

(** ** Lists of rows *)

(** The rows of a table, in the order of the table. *)
Definition rows {A : Type} (table : gmap string A) : list A :=
  snd <$> map_to_list table.

(** [BookingViewSet.get_queryset]; [None] is a user that is not
    authenticated, for whom the view sets answers [Booking.objects.none()]. *)
Definition get_queryset (user : option User.t) (w : World) : list Booking.t :=
  match user with
  | Some user => List.filter (booking_in_queryset user) (rows (bookings w))
  | None => []
  end.

(** [BookingViewSet.my_bookings]: the data of its answer, whose status is
    always 200. *)
Definition my_bookings (user : User.t) (w : World) : list Booking.t :=
  List.filter (fun b => User.eqb (Booking.guest b) user) (rows (bookings w)).

(** ** [ListingViewSet] *)

(** [ListingViewSet.my_listings]: a 401 answer for a user that is not
    authenticated, the listings of the host otherwise. *)
Definition my_listings (user : option User.t) (w : World) : result + list Listing.t :=
  match user with
  | None => inl (Response (Data [("detail", VStr "Authentication required.")]) 401)
  | Some user =>
    inr (List.filter (fun l => User.eqb (Listing.host l) user) (rows (listings w)))
  end.

(** [ListingViewSet.perform_update]. What [serializer.save()] writes is the
    serializer's, which is not under src/: it is the argument [save].
    [Some] carries the detail of the [PermissionDenied] raised. *)
Definition perform_update (user : User.t) (instance : Listing.t) (save : World -> World)
    (w : World) : option string * World :=
  if negb (User.eqb (Listing.host instance) user) then
    (Some "You can only update your own listings.", w)
  else (None, save w).

(** [ListingViewSet.perform_destroy], with [instance.delete()] as the
    argument [delete]. *)
Definition perform_destroy (user : User.t) (instance : Listing.t) (delete : World -> World)
    (w : World) : option string * World :=
  if negb (User.eqb (Listing.host instance) user) then
    (Some "You can only delete your own listings.", w)
  else (None, delete w).

(** ** [create_superuser.py] *)

(** A row of [django.contrib.auth]'s user table, as the script sees it.
    [raw_password] is the password [create_superuser] was given. *)
Record AuthUser := {
  auth_username : string;
  auth_email : string;
  raw_password : string;
  is_staff : bool;
  is_superuser : bool }.

(** [User.objects.filter(username=name).exists()] *)
Definition username_exists (name : string) (users : list AuthUser) : bool :=
  existsb (fun u => String.eqb (auth_username u) name) users.

(** [User.objects.create_superuser(username, email, password)] *)
Definition create_superuser (username email password : string) (users : list AuthUser)
    : list AuthUser :=
  users ++ [{| auth_username := username; auth_email := email; raw_password := password;
               is_staff := true; is_superuser := true |}].

(** The script: the user table after it, and the lines it printed. *)
Definition create_superuser_script (users : list AuthUser) : list AuthUser * list string :=
  if negb (username_exists "admin" users) then
    (create_superuser "admin" "admin@alxtravelapp.com" "admin123" users,
     ["✓ Superuser created successfully!";
      "  Username: admin";
      "  Password: admin123";
      "  Email: admin@alxtravelapp.com"])
  else
    (users, ["✓ Superuser already exists!"]).

(** ** [email_tasks.py] *)

(** What is given to [send_mail]: the subject, the sender, the recipients,
    and the values the two bodies are filled with. *)
Record Mail := {
  mail_subject : string;
  mail_from : string;
  mail_recipients : list string;
  mail_context : list (string * value) }.

(** [send_payment_confirmation_email(booking_obj, payment_obj)]:
    [EMAIL_HOST_USER] is the setting, [send_mail] answers [None] when it
    returns and [Some exc] when it raises. The answer is the returned
    boolean, the records logged, and the mail handed over. *)
Definition send_payment_confirmation_email (EMAIL_HOST_USER : string)
    (send_mail : Mail -> option string) (booking_obj : Booking.t) (payment_obj : Payment.t)
    : bool * list (level * string) * Mail :=
  let context :=
    [("guest_name", VStr (str_or (User.first_name (Booking.guest booking_obj))
                                 (User.username (Booking.guest booking_obj))));
     ("listing_title", VStr (Listing.title (Booking.listing booking_obj)));
     ("listing_location", VStr (Listing.location (Booking.listing booking_obj)));
     ("check_in_date", VDate (Booking.check_in_date booking_obj));
     ("check_out_date", VDate (Booking.check_out_date booking_obj));
     ("amount", VDecimal (Payment.amount payment_obj));
     ("currency", VStr (Payment.currency payment_obj));
     ("payment_id", VStr (Payment.payment_id payment_obj));
     ("transaction_id", opt_value (Payment.transaction_id payment_obj));
     ("booking_id", VStr (Booking.booking_id booking_obj))] in
  let mail :=
    {| mail_subject := "Payment Confirmation - Your Travel Booking";
       mail_from := EMAIL_HOST_USER;
       mail_recipients := [User.email (Booking.guest booking_obj)];
       mail_context := context |} in
  match send_mail mail with
  | None =>
    (true,
     [(INFO, "Payment confirmation email sent to " +:+ User.email (Booking.guest booking_obj))],
     mail)
  | Some e => (false, [(ERROR, "Failed to send payment confirmation email: " +:+ e)], mail)
  end.

(** [send_payment_failure_email(booking_obj, payment_obj, error_message)] *)
Definition send_payment_failure_email (EMAIL_HOST_USER : string)
    (send_mail : Mail -> option string) (booking_obj : Booking.t) (payment_obj : Payment.t)
    (error_message : string) : bool * list (level * string) * Mail :=
  let context :=
    [("guest_name", VStr (str_or (User.first_name (Booking.guest booking_obj))
                                 (User.username (Booking.guest booking_obj))));
     ("listing_title", VStr (Listing.title (Booking.listing booking_obj)));
     ("amount", VDecimal (Payment.amount payment_obj));
     ("currency", VStr (Payment.currency payment_obj));
     ("error_message", VStr error_message)] in
  let mail :=
    {| mail_subject := "Payment Failed - Action Required";
       mail_from := EMAIL_HOST_USER;
       mail_recipients := [User.email (Booking.guest booking_obj)];
       mail_context := context |} in
  match send_mail mail with
  | None =>
    (true, [(INFO, "Payment failure email sent to " +:+ User.email (Booking.guest booking_obj))],
     mail)
  | Some e => (false, [(ERROR, "Failed to send payment failure email: " +:+ e)], mail)
  end.

(** * Further properties *)

(** ** Rows under their keys *)

(** Every row is stored under its own primary key. *)
Definition well_keyed (w : World) : Prop :=
  map_Forall (fun k b => Booking.booking_id b = k) (bookings w)
  /\ map_Forall (fun k p => Payment.payment_id p = k) (payments w).

(** Splits a goal along the tests of a view. *)
Ltac view_cases :=
  repeat match goal with
    | |- context [match ?x with _ => _ end] => destruct x eqn:?
    end.

Lemma well_keyed_sample (bs ps : string) (r : option string) :
  well_keyed (Sample.world bs ps r).
Proof.
  split; cbn; (apply map_Forall_insert_2; [reflexivity | apply map_Forall_empty]).
Qed.

(** ** The life of a booking *)

(** The status of the booking stored under a key. *)
Definition stored_status (pk : string) (w : World) : option string :=
  Booking.status <$> bookings w !! pk.

Lemma user_eqb_refl (u : User.t) : User.eqb u u = true.
Proof. apply Z.eqb_refl. Qed.

(** What [cancel] and [confirm] do to a booking that is stored under its key. *)
Lemma cancel_stored (user : User.t) (pk : string) (b : Booking.t) (w : World) :
  bookings w !! pk = Some b ->
  cancel user pk w
  = if booking_in_queryset user b then
      if str_in (Booking.status b) ["pending"; "confirmed"] then
        (Response (BookingData (Booking.set_status "cancelled" b)) HTTP_200_OK,
         save_booking (Booking.set_status "cancelled" b) w)
      else
        (Response (Data [("detail", VStr ("Cannot cancel a " +:+ Booking.status b +:+ " booking."))])
           HTTP_400_BAD_REQUEST, w)
    else (Http404, w).
Proof.
  intros Hrow. unfold cancel, get_booking. rewrite Hrow.
  destruct (booking_in_queryset user b) eqn:Hin; [| reflexivity].
  unfold cancel_booking. rewrite <- negb_orb.
  change (User.eqb _ user || User.eqb _ user) with (booking_in_queryset user b).
  rewrite Hin. cbn [negb].
  destruct (str_in _ _); reflexivity.
Qed.

Lemma confirm_stored (user : User.t) (pk : string) (b : Booking.t) (w : World) :
  bookings w !! pk = Some b ->
  confirm user pk w
  = if booking_in_queryset user b then
      if User.eqb (Listing.host (Booking.listing b)) user then
        if String.eqb (Booking.status b) "pending" then
          (Response (BookingData (Booking.set_status "confirmed" b)) HTTP_200_OK,
           save_booking (Booking.set_status "confirmed" b) w)
        else
          (Response
             (Data [("detail", VStr ("Cannot confirm a " +:+ Booking.status b +:+ " booking."))])
             HTTP_400_BAD_REQUEST, w)
      else (PermissionDenied "Only the listing host can confirm bookings.", w)
    else (Http404, w).
Proof.
  intros Hrow. unfold confirm, get_booking, confirm_booking. rewrite Hrow.
  destruct (booking_in_queryset user b); [| reflexivity].
  destruct (User.eqb (Listing.host (Booking.listing b)) user); cbn [negb]; [| reflexivity].
  destruct (String.eqb _ _); reflexivity.
Qed.

(** X2. The status of a stored booking moves along pending -> confirmed,
    pending -> cancelled and confirmed -> cancelled only: after [cancel] it
    is what it was, or [cancelled] from [pending] or [confirmed]; after
    [confirm] it is what it was, or [confirmed] from [pending]. A booking
    that is [cancelled] is left as it is by both, whoever asks. *)
Theorem booking_transitions (user : User.t) (pk : string) (b : Booking.t) (w : World) :
  bookings w !! pk = Some b ->
  Booking.booking_id b = pk ->
  let s := Booking.status b in
  let after_cancel := stored_status pk (snd (cancel user pk w)) in
  let after_confirm := stored_status pk (snd (confirm user pk w)) in
  (after_cancel = Some s
   \/ (after_cancel = Some "cancelled" /\ (s = "pending" \/ s = "confirmed")))
  /\ (after_confirm = Some s \/ (after_confirm = Some "confirmed" /\ s = "pending"))
  /\ (s = "cancelled" -> snd (cancel user pk w) = w /\ snd (confirm user pk w) = w).
Proof.
  intros Hrow Hpk s after_cancel after_confirm. subst s after_cancel after_confirm.
  rewrite (cancel_stored user pk b w Hrow), (confirm_stored user pk b w Hrow).
  unfold stored_status.
  destruct (booking_in_queryset user b); cbn [snd].
  2: { rewrite Hrow. split; [left; reflexivity |]. split; [left; reflexivity | auto]. }
  split; [| split].
  - destruct (str_in (Booking.status b) ["pending"; "confirmed"]) eqn:Hopen; cbn [snd].
    + right. split; [| apply str_in_pending_confirmed, Hopen].
      cbn. rewrite Hpk, lookup_insert_eq. reflexivity.
    + left. rewrite Hrow. reflexivity.
  - destruct (User.eqb (Listing.host (Booking.listing b)) user); cbn [snd];
      [| left; rewrite Hrow; reflexivity].
    destruct (String.eqb_spec (Booking.status b) "pending") as [Hs | Hs]; cbn [snd].
    + right. split; [| exact Hs]. cbn. rewrite Hpk, lookup_insert_eq. reflexivity.
    + left. rewrite Hrow. reflexivity.
  - intros Hs. rewrite Hs. cbn.
    destruct (User.eqb (Listing.host (Booking.listing b)) user); split; reflexivity.
Qed.

Lemma booking_transitions_witness :
  let w := Sample.world "cancelled" "pending" None in
  snd (cancel Sample.gebre "B1" w) = w /\ snd (confirm Sample.hana "B1" w) = w.
Proof.
  intros w.
  pose proof (booking_transitions Sample.gebre "B1" (Sample.stay "cancelled") w eq_refl eq_refl)
    as (_ & _ & Hguest).
  pose proof (booking_transitions Sample.hana "B1" (Sample.stay "cancelled") w eq_refl eq_refl)
    as (_ & _ & Hhost).
  split; [apply (Hguest eq_refl) | apply (Hhost eq_refl)].
Defined.

(** X3. Once the listing's host has confirmed a pending booking, the guest
    and the host can still cancel it, and it cannot be confirmed a second
    time. *)
Theorem confirm_then_cancel (host user : User.t) (pk : string) (b : Booking.t) (w : World) :
  bookings w !! pk = Some b ->
  Booking.booking_id b = pk ->
  User.eqb (Listing.host (Booking.listing b)) host = true ->
  Booking.status b = "pending" ->
  booking_in_queryset user b = true ->
  let w1 := snd (confirm host pk w) in
  stored_status pk w1 = Some "confirmed"
  /\ cancel user pk w1
     = (Response (BookingData (Booking.set_status "cancelled" b)) HTTP_200_OK,
        save_booking (Booking.set_status "cancelled" b) w1)
  /\ stored_status pk (snd (cancel user pk w1)) = Some "cancelled"
  /\ confirm host pk w1
     = (Response (Data [("detail", VStr "Cannot confirm a confirmed booking.")])
          HTTP_400_BAD_REQUEST, w1).
Proof.
  intros Hrow Hpk Hhost Hstatus Hparty w1.
  assert (booking_in_queryset host b = true) as Hin
    by (unfold booking_in_queryset; rewrite Hhost; apply orb_true_r).
  assert (w1 = save_booking (Booking.set_status "confirmed" b) w) as Hw1.
  { subst w1. rewrite (confirm_stored host pk b w Hrow), Hin, Hhost, Hstatus. reflexivity. }
  assert (bookings w1 !! pk = Some (Booking.set_status "confirmed" b)) as Hrow1
    by (rewrite Hw1; cbn; rewrite Hpk; apply lookup_insert_eq).
  split; [unfold stored_status; rewrite Hrow1; reflexivity |].
  rewrite (cancel_stored user pk _ w1 Hrow1), (confirm_stored host pk _ w1 Hrow1).
  change (booking_in_queryset user (Booking.set_status "confirmed" b))
    with (booking_in_queryset user b).
  change (booking_in_queryset host (Booking.set_status "confirmed" b))
    with (booking_in_queryset host b).
  rewrite Hparty, Hin. cbn [Booking.set_status Booking.status Booking.listing str_in existsb].
  rewrite Hhost. cbn. split; [reflexivity |]. split; [| reflexivity].
  unfold stored_status. cbn. rewrite Hpk, lookup_insert_eq. reflexivity.
Qed.

Lemma confirm_then_cancel_witness :
  let w := Sample.world "pending" "pending" None in
  let w1 := snd (confirm Sample.hana "B1" w) in
  stored_status "B1" w1 = Some "confirmed"
  /\ stored_status "B1" (snd (cancel Sample.gebre "B1" w1)) = Some "cancelled".
Proof.
  intros w w1.
  pose proof (confirm_then_cancel Sample.hana Sample.gebre "B1" (Sample.stay "pending") w
                eq_refl eq_refl eq_refl eq_refl eq_refl) as (H1 & _ & H2 & _).
  split; [exact H1 | exact H2].
Defined.

Lemma set_bookings_same (w : World) : w = set_bookings (fun _ => bookings w) w.
Proof. destruct w; reflexivity. Qed.

Lemma set_status_same (b : Booking.t) : b = Booking.set_status (Booking.status b) b.
Proof. destruct b; reflexivity. Qed.

(** What a view that writes one booking's status leaves alone. *)
Definition only_status_of (pk : string) (b : Booking.t) (w w' : World) : Prop :=
  w' = set_bookings (fun _ => bookings w') w
  /\ (forall k, k <> pk -> bookings w' !! k = bookings w !! k)
  /\ exists b', bookings w' !! pk = Some b' /\ b' = Booking.set_status (Booking.status b') b.

Lemma only_status_of_same (pk : string) (b : Booking.t) (w : World) :
  bookings w !! pk = Some b -> only_status_of pk b w w.
Proof.
  intros Hrow. split; [apply set_bookings_same |]. split; [reflexivity |].
  exists b. split; [exact Hrow | apply set_status_same].
Qed.

Lemma only_status_of_save (pk : string) (b : Booking.t) (s : string) (w : World) :
  Booking.booking_id b = pk -> only_status_of pk b w (save_booking (Booking.set_status s b) w).
Proof.
  intros Hpk. split; [reflexivity |]. split.
  - intros k Hk. cbn. rewrite Hpk. apply lookup_insert_ne. congruence.
  - exists (Booking.set_status s b). split; [| reflexivity].
    cbn. rewrite Hpk. apply lookup_insert_eq.
Qed.

(** X4. [cancel] and [confirm] write nothing but the status of the booking
    they are asked about: the listings, the payments (a paid booking that is
    cancelled keeps its payment as it is), the queue of e-mail tasks, the
    gateway calls and the log are as before, every other booking is as
    before, and the booking itself differs from what it was by its status at
    most. *)
Theorem cancel_confirm_frame (user : User.t) (pk : string) (b : Booking.t) (w : World) :
  bookings w !! pk = Some b ->
  Booking.booking_id b = pk ->
  only_status_of pk b w (snd (cancel user pk w))
  /\ only_status_of pk b w (snd (confirm user pk w)).
Proof.
  intros Hrow Hpk.
  rewrite (cancel_stored user pk b w Hrow), (confirm_stored user pk b w Hrow).
  destruct (booking_in_queryset user b); cbn [snd];
    [| split; apply only_status_of_same, Hrow].
  split.
  - destruct (str_in _ _); cbn [snd];
      [apply only_status_of_save, Hpk | apply only_status_of_same, Hrow].
  - destruct (User.eqb _ user); cbn [snd]; [| apply only_status_of_same, Hrow].
    destruct (String.eqb _ _); cbn [snd];
      [apply only_status_of_save, Hpk | apply only_status_of_same, Hrow].
Qed.

Lemma cancel_confirm_frame_witness :
  let w := Sample.world "confirmed" "completed" (Some "REF1") in
  let w' := snd (cancel Sample.gebre "B1" w) in
  stored_status "B1" w' = Some "cancelled"
  /\ payments w' = payments w
  /\ celery_queue w' = celery_queue w.
Proof.
  intros w w'.
  pose proof (cancel_confirm_frame Sample.gebre "B1" (Sample.stay "confirmed") w
                eq_refl eq_refl) as [(Hw' & _) _].
  fold w' in Hw'. split; [reflexivity |]. rewrite Hw'. split; reflexivity.
Defined.

(** X5. A booking that [perform_create] has just written can be opened by
    both sides: the listing's host can confirm it and the user who made it
    can cancel it, under the key it was given. *)
Theorem create_then_confirm (user : User.t) (req : BookingRequest) (w w1 : World)
    (booking : Booking.t) :
  perform_create user req w = (Some booking, w1) ->
  let pk := Booking.booking_id booking in
  let host := Listing.host (Booking.listing booking) in
  Booking.guest booking = user
  /\ bookings w1 !! pk = Some booking
  /\ confirm host pk w1
     = (Response (BookingData (Booking.set_status "confirmed" booking)) HTTP_200_OK,
        save_booking (Booking.set_status "confirmed" booking) w1)
  /\ cancel user pk w1
     = (Response (BookingData (Booking.set_status "cancelled" booking)) HTTP_200_OK,
        save_booking (Booking.set_status "cancelled" booking) w1).
Proof.
  intros Hmade. unfold perform_create in Hmade.
  destruct (get_listing w _) as [listing |]; [| discriminate].
  cbv beta iota zeta delta [create_payment_for_booking new_uuid] in Hmade.
  injection Hmade as <- <-. intros pk host.
  match goal with |- Booking.guest ?b = _ /\ _ => set (made := b) in * end.
  match goal with |- _ /\ bookings ?w' !! pk = _ /\ _ => set (w1 := w') end.
  assert (bookings w1 !! pk = Some made) as Hrow by apply lookup_insert_eq.
  split; [reflexivity |]. split; [exact Hrow |].
  rewrite (confirm_stored host pk made w1 Hrow), (cancel_stored user pk made w1 Hrow).
  unfold booking_in_queryset. subst host. cbn [made Booking.guest Booking.listing Booking.status].
  rewrite !user_eqb_refl, orb_true_r. cbn. split; reflexivity.
Qed.

Lemma create_then_confirm_witness :
  let made := fst (perform_create Sample.gebre Sample.request Sample.empty_world) in
  let w1 := snd (perform_create Sample.gebre Sample.request Sample.empty_world) in
  made = Some (Sample.stay "pending")
  /\ stored_status "B1" (snd (confirm Sample.hana "B1" w1)) = Some "confirmed"
  /\ stored_status "B1" (snd (cancel Sample.gebre "B1" w1)) = Some "cancelled".
Proof.
  intros made w1.
  pose proof (create_then_confirm Sample.gebre Sample.request Sample.empty_world w1
                (Sample.stay "pending") eq_refl) as (_ & _ & Hconfirm & Hcancel).
  cbv zeta in Hconfirm, Hcancel.
  split; [reflexivity |]. split.
  - change "B1"%string with (Booking.booking_id (Sample.stay "pending")) at 2.
    change Sample.hana with (Listing.host (Booking.listing (Sample.stay "pending"))).
    rewrite Hconfirm. reflexivity.
  - change "B1"%string with (Booking.booking_id (Sample.stay "pending")) at 2.
    rewrite Hcancel. reflexivity.
Defined.

(** ** Behind [get_object] and the list views *)

Lemma get_booking_some (w : World) (user : User.t) (pk : string) (b : Booking.t) :
  get_booking w user pk = Some b ->
  bookings w !! pk = Some b /\ booking_in_queryset user b = true.
Proof.
  unfold get_booking. destruct (bookings w !! pk) as [b' |]; [| discriminate].
  destruct (booking_in_queryset user b') eqn:Hin; [| discriminate].
  intros Heq. injection Heq as <-. auto.
Qed.

(** X6. Where the permission tests of the views can be met. [get_object]
    hands a view only rows of [get_queryset], so [cancel] and
    [verify_status], which let the guest and the host through, never raise
    [PermissionDenied]; [confirm] raises it only for a guest who is not the
    host, and [initiate_payment] only for a host who is not the guest.
    Anyone else is answered [Http404], the state unchanged. *)
Theorem permission_tests_behind_get_object (chapa_client : ChapaAPIClient) (user : User.t)
    (pk : string) (w : World) :
  forbidden (fst (cancel user pk w)) = false
  /\ forbidden (fst (verify_status chapa_client user pk w)) = false
  /\ (forbidden (fst (confirm user pk w)) = true ->
        exists b, bookings w !! pk = Some b
                  /\ User.eqb (Booking.guest b) user = true
                  /\ User.eqb (Listing.host (Booking.listing b)) user = false)
  /\ (forbidden (fst (initiate_payment chapa_client user pk w)) = true ->
        exists b, bookings w !! pk = Some b
                  /\ User.eqb (Listing.host (Booking.listing b)) user = true
                  /\ User.eqb (Booking.guest b) user = false)
  /\ (forall b, bookings w !! pk = Some b -> booking_in_queryset user b = false ->
        cancel user pk w = (Http404, w)
        /\ confirm user pk w = (Http404, w)
        /\ initiate_payment chapa_client user pk w = (Http404, w))
  /\ (forall p, payments w !! pk = Some p -> payment_in_queryset user p = false ->
        verify_status chapa_client user pk w = (Http404, w)).
Proof.
  split; [| split; [| split; [| split; [| split]]]].
  - unfold cancel. destruct (get_booking w user pk) as [b |] eqn:Hget; [| reflexivity].
    apply get_booking_some in Hget as [_ Hin]. unfold cancel_booking.
    rewrite <- negb_orb.
    change (User.eqb _ user || User.eqb _ user) with (booking_in_queryset user b).
    rewrite Hin. cbn [negb]. destruct (negb _); reflexivity.
  - unfold verify_status, get_payment.
    destruct (payments w !! pk) as [p |]; [| reflexivity].
    destruct (payment_in_queryset user p) eqn:Hin; [| reflexivity].
    unfold verify_status_payment, update_payment_status, verify_status_except.
    rewrite <- negb_orb.
    change (User.eqb _ user || User.eqb _ user) with (payment_in_queryset user p).
    rewrite Hin. cbn [negb]. view_cases; reflexivity.
  - unfold confirm. destruct (get_booking w user pk) as [b |] eqn:Hget; [| discriminate].
    apply get_booking_some in Hget as [Hrow Hin]. unfold confirm_booking.
    destruct (User.eqb (Listing.host (Booking.listing b)) user) eqn:Hhost; cbn [negb].
    + destruct (negb _); discriminate.
    + intros _. exists b. unfold booking_in_queryset in Hin. rewrite Hhost, orb_false_r in Hin.
      auto.
  - unfold initiate_payment.
    destruct (get_booking w user pk) as [b |] eqn:Hget; [| discriminate].
    apply get_booking_some in Hget as [Hrow Hin]. unfold initiate_payment_booking.
    destruct (User.eqb (Booking.guest b) user) eqn:Hguest; cbn [negb].
    + unfold update_payment_status, initiate_payment_except.
      destruct (payment_of_booking b w). view_cases; discriminate.
    + intros _. exists b. unfold booking_in_queryset in Hin. rewrite Hguest in Hin. auto.
  - intros b Hrow Hin. exact (views_of_stranger chapa_client w user pk b Hrow Hin).
  - intros p Hrow Hin. unfold verify_status, get_payment. rewrite Hrow, Hin. reflexivity.
Qed.

Lemma permission_tests_behind_get_object_witness :
  let w := Sample.world "pending" "pending" None in
  let c := Sample.client Sample.checkout Sample.verified in
  cancel Sample.marta "B1" w = (Http404, w)
  /\ verify_status c Sample.marta "P1" w = (Http404, w)
  /\ forbidden (fst (confirm Sample.gebre "B1" w)) = true
  /\ forbidden (fst (initiate_payment c Sample.hana "B1" w)) = true.
Proof.
  intros w c.
  pose proof (permission_tests_behind_get_object c Sample.marta "B1" w)
    as (_ & _ & _ & _ & Hb & _).
  pose proof (permission_tests_behind_get_object c Sample.marta "P1" w)
    as (_ & _ & _ & _ & _ & Hp).
  split; [apply (Hb (Sample.stay "pending")); reflexivity |].
  split; [apply (Hp (Sample.bill "pending" None)); reflexivity |].
  split; reflexivity.
Defined.

Lemma elem_of_rows {A : Type} (table : gmap string A) (x : A) :
  x ∈ rows table <-> exists k, table !! k = Some x.
Proof.
  unfold rows. rewrite list_elem_of_fmap. split.
  - intros [[k y] [-> Hin]]. exists k. apply elem_of_map_to_list in Hin. exact Hin.
  - intros [k Hk]. exists (k, x). split; [reflexivity | apply elem_of_map_to_list, Hk].
Qed.

Lemma elem_of_filter_rows {A : Type} (f : A -> bool) (table : gmap string A) (x : A) :
  x ∈ List.filter f (rows table) <-> (exists k, table !! k = Some x) /\ f x = true.
Proof.
  rewrite list_elem_of_In, filter_In, <- list_elem_of_In, elem_of_rows. reflexivity.
Qed.

(** X7. [my_bookings] lists exactly the stored bookings the user made as a
    guest. Each of them is a row of [get_queryset], so, in a state where
    rows are stored under their keys, [get_object] finds it for the user: a
    booking the user sees in the list is never answered [Http404]. A user
    that is not authenticated has an empty [get_queryset]. *)
Theorem my_bookings_listed (user : User.t) (w : World) (b : Booking.t) :
  (b ∈ my_bookings user w
   <-> (exists k, bookings w !! k = Some b) /\ User.eqb (Booking.guest b) user = true)
  /\ (b ∈ my_bookings user w -> b ∈ get_queryset (Some user) w)
  /\ (b ∈ my_bookings user w -> well_keyed w ->
        get_booking w user (Booking.booking_id b) = Some b)
  /\ get_queryset None w = [].
Proof.
  unfold my_bookings, get_queryset. rewrite !elem_of_filter_rows.
  split; [reflexivity |]. split; [| split; [| reflexivity]].
  - intros [Hrow Hguest]. split; [exact Hrow |].
    unfold booking_in_queryset. rewrite Hguest. reflexivity.
  - intros [[k Hrow] Hguest] [Hkeys _].
    rewrite (Hkeys k b Hrow). unfold get_booking. rewrite Hrow.
    unfold booking_in_queryset. rewrite Hguest. reflexivity.
Qed.

Lemma my_bookings_listed_witness :
  let w := Sample.world "pending" "pending" None in
  Sample.stay "pending" ∈ my_bookings Sample.gebre w
  /\ get_booking w Sample.gebre "B1" = Some (Sample.stay "pending")
  /\ my_bookings Sample.hana w = [].
Proof.
  intros w.
  pose proof (my_bookings_listed Sample.gebre w (Sample.stay "pending")) as (Hin & _ & Hget & _).
  assert (Sample.stay "pending" ∈ my_bookings Sample.gebre w) as Hlisted
    by (apply Hin; split; [exists "B1"%string; reflexivity | reflexivity]).
  split; [exact Hlisted |]. split; [| reflexivity].
  apply (Hget Hlisted (well_keyed_sample _ _ _)).
Defined.

(** ** What [perform_create] writes *)

(** X8. The pricing of [perform_create]. A request that names no stored
    listing writes nothing. Otherwise a booking is written for the request's
    user with status [pending]; a total price that is given and is not zero
    is kept, whatever the dates; one that is absent or zero is replaced by
    the nightly price times the difference of the dates, and nothing bounds
    that difference from below: with check-out on or before check-in the
    price written is zero or negative. *)
Theorem perform_create_price (user : User.t) (req : BookingRequest) (w : World) :
  match get_listing w (req_listing_id req) with
  | None => perform_create user req w = (None, w)
  | Some listing =>
    let nightly :=
      Listing.price_per_night listing * days (req_check_out_date req) (req_check_in_date req) in
    exists booking w1,
      perform_create user req w = (Some booking, w1)
      /\ Booking.guest booking = user
      /\ Booking.listing booking = listing
      /\ Booking.status booking = "pending"
      /\ (forall d, req_total_price req = Some d -> d <> 0 -> Booking.total_price booking = d)
      /\ (req_total_price req = None \/ req_total_price req = Some 0 ->
            Booking.total_price booking = nightly)
      /\ (req_total_price req = None ->
          req_check_out_date req <= req_check_in_date req ->
          0 <= Listing.price_per_night listing ->
            Booking.total_price booking <= 0)
  end.
Proof.
  unfold perform_create. destruct (get_listing w _) as [listing |]; [| reflexivity].
  cbv beta iota zeta delta [create_payment_for_booking new_uuid].
  eexists _, _. split; [reflexivity |]. cbn [Booking.guest Booking.listing Booking.status
                                              Booking.total_price].
  repeat split.
  - intros d -> Hd. cbn. destruct (Z.eqb_spec d 0); [contradiction | reflexivity].
  - intros [-> | ->]; reflexivity.
  - intros -> Hdates Hprice. cbn. unfold days. nia.
Qed.

Lemma perform_create_price_witness :
  let zero := {| req_listing_id := Some "L1"; req_check_in_date := ymd 2025 6 1;
                 req_check_out_date := ymd 2025 6 4; req_total_price := Some 0 |} in
  let given := {| req_listing_id := Some "L1"; req_check_in_date := ymd 2025 6 1;
                  req_check_out_date := ymd 2025 6 4; req_total_price := Some (units 50) |} in
  let nowhere := {| req_listing_id := Some "L9"; req_check_in_date := ymd 2025 6 1;
                    req_check_out_date := ymd 2025 6 4; req_total_price := None |} in
  Booking.total_price <$> fst (perform_create Sample.gebre zero Sample.empty_world)
  = Some (units 300)
  /\ Booking.total_price <$> fst (perform_create Sample.gebre given Sample.empty_world)
     = Some (units 50)
  /\ perform_create Sample.gebre nowhere Sample.empty_world = (None, Sample.empty_world).
Proof.
  intros zero given nowhere.
  pose proof (perform_create_price Sample.gebre nowhere Sample.empty_world) as Hnowhere.
  split; [reflexivity |]. split; [reflexivity | exact Hnowhere].
Defined.

(** ** Starting a payment, again *)

(** The booking has this payment and no other. *)
Definition sole_payment (table : gmap string Payment.t) (b : Booking.t) (p : Payment.t) : Prop :=
  table !! Payment.payment_id p = Some p
  /\ Booking.booking_id (Payment.booking p) = Booking.booking_id b
  /\ forall k q, table !! k = Some q ->
       Booking.booking_id (Payment.booking q) = Booking.booking_id b -> k = Payment.payment_id p.

Lemma booking_payment_sole (w : World) (b : Booking.t) (p : Payment.t) :
  sole_payment (payments w) b p -> booking_payment w b = Some p.
Proof.
  intros (Hrow & Hb & Hsole). unfold booking_payment.
  destruct (List.find _ _) as [q |] eqn:Hfind.
  - apply find_some in Hfind as [Hin Hq].
    apply list_elem_of_In, (elem_of_rows (payments w)) in Hin as [k Hk].
    apply String.eqb_eq in Hq. rewrite (Hsole k q Hk Hq) in Hk. congruence.
  - assert (In p (snd <$> map_to_list (payments w))) as Hin
      by (apply list_elem_of_In, (elem_of_rows (payments w)); eauto).
    apply (find_none _ _ Hfind) in Hin. apply String.eqb_neq in Hin. contradiction.
Qed.

Lemma sole_payment_updated (table : gmap string Payment.t) (b : Booking.t) (p : Payment.t)
    (status : string) (r t m e : option string) :
  sole_payment table b p ->
  sole_payment (<[Payment.payment_id p := updated_payment p status r t m e]> table) b
    (updated_payment p status r t m e).
Proof.
  intros (Hrow & Hb & Hsole). split; [apply lookup_insert_eq |]. split; [exact Hb |].
  intros k q Hk Hq. cbn [updated_payment Payment.payment_id].
  destruct (decide (Payment.payment_id p = k)) as [<- | Hne]; [reflexivity |].
  rewrite lookup_insert_ne in Hk by exact Hne. exact (Hsole k q Hk Hq).
Qed.

Lemma sole_payment_sample (s : string) (r : option string) :
  sole_payment (payments (Sample.world "pending" s r)) (Sample.stay "pending") (Sample.bill s r).
Proof.
  split; [reflexivity |]. split; [reflexivity |].
  intros k q Hk _. cbn in Hk. apply lookup_singleton_Some in Hk as [<- _]. reflexivity.
Qed.

(** The text [initiate_payment] answers and [verify_status] answers for an
    exception. *)
Definition error_text (e : exn) : string :=
  match e with
  | ValueError msg => "Configuration error: " +:+ msg
  | Exception msg => "Unexpected error: " +:+ msg
  end.

(** X9. When the gateway client cannot be built, or its [initiate_payment]
    raises, the guest who starts a pending payment is answered 500 with the
    error, [Configuration error:] for a [ValueError] and [Unexpected error:]
    otherwise; the error is logged, no task is queued, and no payment row is
    written: the payment is still [pending]. The client's method is counted
    as called only if the client was built. *)
Theorem initiate_payment_raises (chapa_client : ChapaAPIClient) (user : User.t)
    (booking : Booking.t) (payment : Payment.t) (w : World) (e : exn) :
  User.eqb (Booking.guest booking) user = true ->
  booking_payment w booking = Some payment ->
  Payment.status payment = "pending" ->
  chapa_new chapa_client = Some e
  \/ (chapa_new chapa_client = None
      /\ chapa_initiate_payment chapa_client payment booking = Raises e) ->
  let answer := initiate_payment_booking chapa_client user booking w in
  status_code (fst answer) = Some HTTP_500_INTERNAL_SERVER_ERROR
  /\ error_of (fst answer) = Some (error_text e)
  /\ payments (snd answer) = payments w
  /\ celery_queue (snd answer) = celery_queue w
  /\ (exists msg, log (snd answer) = (log w ++ [(ERROR, msg)])%list)
  /\ chapa_calls (snd answer)
     = match chapa_new chapa_client with
       | Some _ => chapa_calls w
       | None => (chapa_calls w ++ [InitiateCall (Payment.payment_id payment)])%list
       end.
Proof.
  intros Hguest Hpayment Hpending Hraise answer. subst answer.
  unfold initiate_payment_booking, payment_of_booking.
  rewrite Hguest, Hpayment, Hpending. cbn [negb String.eqb].
  destruct Hraise as [-> | [-> ->]]; destruct e; cbn; repeat split; eexists; reflexivity.
Qed.

Lemma initiate_payment_raises_witness :
  let w := Sample.world "pending" "pending" None in
  let answer :=
    initiate_payment_booking Sample.unconfigured Sample.gebre (Sample.stay "pending") w in
  error_of (fst answer) = Some "Configuration error: CHAPA_SECRET_KEY is not set"
  /\ payments (snd answer) = payments w
  /\ chapa_calls (snd answer) = [].
Proof.
  intros w answer.
  pose proof (initiate_payment_raises Sample.unconfigured Sample.gebre (Sample.stay "pending")
                (Sample.bill "pending" None) w (ValueError "CHAPA_SECRET_KEY is not set")
                eq_refl eq_refl eq_refl (or_introl eq_refl)) as (_ & Herror & Hrows & _ & _ & Hcalls).
  split; [exact Herror |]. split; [exact Hrows | exact Hcalls].
Defined.

(** X10. A payment the gateway declined cannot be started again. When the
    gateway answers the guest's [initiate_payment] with a failure, the
    booking's payment is written as [failed]; a second [initiate_payment]
    for the booking, with any client, is then answered 400 and reaches no
    gateway. *)
Theorem declined_payment_is_closed (c1 c2 : ChapaAPIClient) (user : User.t)
    (booking : Booking.t) (payment : Payment.t) (w : World) (declined : InitiateResult) :
  User.eqb (Booking.guest booking) user = true ->
  sole_payment (payments w) booking payment ->
  Payment.status payment = "pending" ->
  chapa_new c1 = None ->
  chapa_initiate_payment c1 payment booking = Returns declined ->
  init_success declined = false ->
  let w1 := snd (initiate_payment_booking c1 user booking w) in
  Payment.status <$> payments w1 !! Payment.payment_id payment = Some "failed"
  /\ initiate_payment_booking c2 user booking w1
     = (Response (Data [("detail", VStr "Cannot initiate payment for failed payment.")])
          HTTP_400_BAD_REQUEST, w1).
Proof.
  intros Hguest Hsole Hpending Hnew Hcall Hdeclined w1.
  set (failed := updated_payment payment "failed" None None None
                   (Some (get_default (init_error declined) "Unknown error"))).
  assert (w1 = save_payment failed
                 (call_chapa (InitiateCall (Payment.payment_id payment)) w)) as Hw1.
  { subst w1. unfold initiate_payment_booking, payment_of_booking.
    rewrite Hguest, (booking_payment_sole w booking payment Hsole), Hpending, Hnew, Hcall,
      Hdeclined. reflexivity. }
  assert (sole_payment (payments w1) booking failed) as Hsole1
    by (rewrite Hw1; apply (sole_payment_updated _ _ _ _ _ _ _ _ Hsole)).
  split.
  - rewrite Hw1. cbn. rewrite lookup_insert_eq. reflexivity.
  - unfold initiate_payment_booking, payment_of_booking.
    rewrite Hguest, (booking_payment_sole w1 booking failed Hsole1). reflexivity.
Qed.

Lemma declined_payment_is_closed_witness :
  let w := Sample.world "pending" "pending" None in
  let c1 := Sample.client Sample.declined Sample.verified in
  let c2 := Sample.client Sample.checkout Sample.verified in
  let w1 := snd (initiate_payment_booking c1 Sample.gebre (Sample.stay "pending") w) in
  initiate_payment_booking c2 Sample.gebre (Sample.stay "pending") w1
  = (Response (Data [("detail", VStr "Cannot initiate payment for failed payment.")])
       HTTP_400_BAD_REQUEST, w1).
Proof.
  intros w c1 c2 w1.
  apply (declined_payment_is_closed c1 c2 Sample.gebre (Sample.stay "pending")
           (Sample.bill "pending" None) w Sample.declined
           eq_refl (sole_payment_sample _ _) eq_refl eq_refl eq_refl eq_refl).
Defined.

(** X11. From [initiate_payment] to [verify_status]. After the gateway
    accepted the guest's [initiate_payment], a verification of the payment
    asks a configured gateway about the reference the gateway gave, when it
    gave one that is not empty. When it gave none and the payment had none,
    the payment still counts as not initiated: [verify_status] answers 400
    and asks nobody. *)
Theorem initiate_then_verify_status (c1 c2 : ChapaAPIClient) (user : User.t)
    (booking : Booking.t) (payment : Payment.t) (w : World) (accepted : InitiateResult) :
  User.eqb (Booking.guest booking) user = true ->
  payment_in_queryset user payment = true ->
  sole_payment (payments w) booking payment ->
  Payment.status payment = "pending" ->
  chapa_new c1 = None ->
  chapa_initiate_payment c1 payment booking = Returns accepted ->
  init_success accepted = true ->
  chapa_new c2 = None ->
  let w1 := snd (initiate_payment_booking c1 user booking w) in
  let answer := verify_status c2 user (Payment.payment_id payment) w1 in
  (forall reference,
     init_reference accepted = Some reference -> reference <> "" ->
     chapa_calls (snd answer) = (chapa_calls w1 ++ [VerifyCall reference])%list)
  /\ (init_reference accepted = None -> Payment.chapa_reference payment = None ->
        answer
        = (Response (Data [("detail", VStr "Payment has not been initiated yet.")])
             HTTP_400_BAD_REQUEST, w1)).
Proof.
  intros Hguest Hin Hsole Hpending Hnew Hcall Haccepted Hnew2 w1 answer.
  set (kept := updated_payment payment "pending" (init_reference accepted) None None None).
  assert (w1 = save_payment kept
                 (call_chapa (InitiateCall (Payment.payment_id payment)) w)) as Hw1.
  { subst w1. unfold initiate_payment_booking, payment_of_booking.
    rewrite Hguest, (booking_payment_sole w booking payment Hsole), Hpending, Hnew, Hcall,
      Haccepted. reflexivity. }
  assert (get_payment w1 user (Payment.payment_id payment) = Some kept) as Hget.
  { unfold get_payment. rewrite Hw1. cbn [save_payment set_payments payments].
    change (Payment.payment_id kept) with (Payment.payment_id payment).
    rewrite lookup_insert_eq.
    change (payment_in_queryset user kept) with (payment_in_queryset user payment).
    rewrite Hin. reflexivity. }
  subst answer. unfold verify_status. rewrite Hget. unfold verify_status_payment.
  rewrite <- negb_orb.
  change (User.eqb _ user || User.eqb _ user) with (payment_in_queryset user payment).
  rewrite Hin. cbn [negb kept updated_payment Payment.chapa_reference].
  split.
  - intros reference Href Hne. rewrite Href. cbn [kwarg truthy get_default].
    apply String.eqb_neq in Hne. rewrite Hne, Hnew2. cbn [negb].
    destruct (chapa_verify_payment c2 reference) as [result | e]; [| destruct e; reflexivity].
    unfold update_payment_status. view_cases; reflexivity.
  - intros -> ->. reflexivity.
Qed.

Lemma initiate_then_verify_status_witness :
  let w := Sample.world "pending" "pending" None in
  let c := Sample.client Sample.checkout Sample.still_pending in
  let w1 := snd (initiate_payment_booking c Sample.gebre (Sample.stay "pending") w) in
  chapa_calls (snd (verify_status c Sample.gebre "P1" w1))
  = [InitiateCall "P1"; VerifyCall "REF1"].
Proof.
  intros w c w1.
  pose proof (initiate_then_verify_status c c Sample.gebre (Sample.stay "pending")
                (Sample.bill "pending" None) w Sample.checkout
                eq_refl eq_refl (sole_payment_sample _ _) eq_refl eq_refl eq_refl eq_refl eq_refl)
    as [Hcalls _].
  exact (Hcalls "REF1"%string eq_refl ltac:(discriminate)).
Defined.

(** ** What a request can cost *)

(** [l'] is [l], or [l] with one more element at its end. *)
Definition at_most_one_more {A : Type} (l l' : list A) : Prop :=
  l' = l \/ exists x, l' = (l ++ [x])%list.

Lemma payment_of_booking_frame (b : Booking.t) (w : World) :
  chapa_calls (snd (payment_of_booking b w)) = chapa_calls w
  /\ celery_queue (snd (payment_of_booking b w)) = celery_queue w.
Proof. unfold payment_of_booking. destruct (booking_payment w b); split; reflexivity. Qed.

(** X12. One request, at most one gateway call and at most one e-mail task.
    [initiate_payment], [verify_status] and [verify] call at most one method
    of the gateway client; the verifications queue at most one task, and
    only after the gateway was called; [initiate_payment] never queues one;
    [perform_create], [cancel] and [confirm] reach neither the gateway nor
    the queue. *)
Theorem one_call_one_task (chapa_client : ChapaAPIClient) (user : User.t) (pk : string)
    (tx_ref : option string) (req : BookingRequest) (w : World) :
  let started := snd (initiate_payment chapa_client user pk w) in
  let polled := snd (verify_status chapa_client user pk w) in
  let called_back := snd (verify chapa_client tx_ref w) in
  (at_most_one_more (chapa_calls w) (chapa_calls started)
   /\ celery_queue started = celery_queue w)
  /\ (at_most_one_more (chapa_calls w) (chapa_calls polled)
      /\ at_most_one_more (celery_queue w) (celery_queue polled)
      /\ (chapa_calls polled = chapa_calls w -> celery_queue polled = celery_queue w))
  /\ (at_most_one_more (chapa_calls w) (chapa_calls called_back)
      /\ at_most_one_more (celery_queue w) (celery_queue called_back)
      /\ (chapa_calls called_back = chapa_calls w -> celery_queue called_back = celery_queue w))
  /\ (chapa_calls (snd (perform_create user req w)) = chapa_calls w
      /\ celery_queue (snd (perform_create user req w)) = celery_queue w)
  /\ (chapa_calls (snd (cancel user pk w)) = chapa_calls w
      /\ celery_queue (snd (cancel user pk w)) = celery_queue w)
  /\ (chapa_calls (snd (confirm user pk w)) = chapa_calls w
      /\ celery_queue (snd (confirm user pk w)) = celery_queue w).
Proof.
  assert (forall (A : Type) (l : list A) (x : A), (l ++ [x])%list = l -> False) as Hgrow.
  { intros A l x Heq. apply (f_equal length) in Heq. rewrite length_app in Heq. cbn in Heq. lia. }
  cbv zeta. split; [| split; [| split; [| split; [| split]]]].
  - unfold initiate_payment, initiate_payment_booking.
    destruct (get_booking w user pk) as [b |]; [| split; [left |]; reflexivity].
    destruct (negb _); [split; [left |]; reflexivity |].
    destruct (payment_of_booking_frame b w) as [Hcalls Hqueue].
    destruct (payment_of_booking b w) as [p w0]. cbn [snd] in Hcalls, Hqueue.
    unfold update_payment_status, initiate_payment_except.
    view_cases; cbn; rewrite ?Hcalls, ?Hqueue; split; try reflexivity.
    all: first [left; reflexivity | right; eexists; reflexivity].
  - unfold verify_status, verify_status_payment, update_payment_status, verify_status_except.
    view_cases; cbn; repeat split; try reflexivity.
    all: try (intros Heq; apply Hgrow in Heq; contradiction).
    all: first [left; reflexivity | right; eexists; reflexivity].
  - unfold verify, update_payment_status, verify_except.
    view_cases; cbn; repeat split; try reflexivity.
    all: try (intros Heq; apply Hgrow in Heq; contradiction).
    all: first [left; reflexivity | right; eexists; reflexivity].
  - unfold perform_create, create_payment_for_booking, new_uuid.
    view_cases; cbn; split; reflexivity.
  - unfold cancel, cancel_booking. view_cases; cbn; split; reflexivity.
  - unfold confirm, confirm_booking. view_cases; cbn; split; reflexivity.
Qed.

(** ** The callback *)

(** X13. The callback [verify] and a reference it cannot use. Without a
    [tx_ref], or with an empty one, it answers 400 [tx_ref parameter is
    required]. With one that is no key and spells no identifier, the lookup
    raises django's [ValidationError] before the [try], and nothing catches
    it. With one that spells the identifier of no payment it answers 404
    [Payment not found]. In all three cases nothing is written, logged or
    queued and the gateway client is not even built. *)
Theorem verify_unusable_reference (chapa_client : ChapaAPIClient) (tx_ref : option string)
    (w : World) :
  (truthy tx_ref = false ->
     verify chapa_client tx_ref w
     = (Response (Data [("error", VStr "tx_ref parameter is required")])
          HTTP_400_BAD_REQUEST, w))
  /\ (forall text, tx_ref = Some text -> text <> "" -> payments w !! text = None ->
        match uuid_text w text with
        | None => verify chapa_client tx_ref w = (InvalidUUID text, w)
        | Some key =>
          payments w !! key = None ->
          verify chapa_client tx_ref w
          = (Response (Data [("error", VStr "Payment not found")]) HTTP_404_NOT_FOUND, w)
        end).
Proof.
  unfold verify. split.
  - intros ->. reflexivity.
  - intros text -> Htext Hrow. cbn [truthy get_default].
    apply String.eqb_neq in Htext. rewrite Htext. cbn [negb].
    unfold payment_objects_get. rewrite Hrow.
    destruct (uuid_text w text) as [key |]; [| reflexivity].
    intros Hkey. rewrite Hkey. reflexivity.
Qed.

Lemma verify_unusable_reference_witness :
  let w := Sample.world "pending" "pending" None in
  verify Sample.unconfigured (Some "") w
  = (Response (Data [("error", VStr "tx_ref parameter is required")]) HTTP_400_BAD_REQUEST, w)
  /\ verify Sample.unconfigured (Some "P7") w
     = (Response (Data [("error", VStr "Payment not found")]) HTTP_404_NOT_FOUND, w)
  /\ verify Sample.unconfigured (Some "no identifier") w = (InvalidUUID "no identifier", w).
Proof.
  intros w.
  pose proof (verify_unusable_reference Sample.unconfigured (Some ""%string) w) as [Hempty _].
  pose proof (verify_unusable_reference Sample.unconfigured (Some "P7"%string) w) as [_ Hnone].
  pose proof (verify_unusable_reference Sample.unconfigured (Some "no identifier"%string) w)
    as [_ Hbad].
  split; [apply Hempty; reflexivity |]. split.
  - apply (Hnone "P7"%string); [reflexivity | discriminate | reflexivity | reflexivity].
  - apply (Hbad "no identifier"%string); [reflexivity | discriminate | reflexivity].
Defined.

(** X14. A verdict of [failed], seen by the two verifications. Both write
    the payment as [failed] and answer 400 with status [failed];
    [verify_status] records [Payment failed on Chapa] and queues the failure
    e-mail for the guest, the callback [verify] records [Payment failed] and
    queues nothing. *)
Theorem failed_verdict (chapa_client : ChapaAPIClient) (user : User.t) (pk : string)
    (payment : Payment.t) (w : World) (result : VerifyResult) :
  payments w !! pk = Some payment ->
  Payment.payment_id payment = pk ->
  payment_in_queryset user payment = true ->
  truthy (Some pk) = true ->
  truthy (Payment.chapa_reference payment) = true ->
  ask chapa_client (get_default (Payment.chapa_reference payment) "") = Returns result ->
  ver_success result = true ->
  chapa_status result = "failed" ->
  let polled := verify_status chapa_client user pk w in
  let called_back := verify chapa_client (Some pk) w in
  let answer :=
    Response (Data [("success", VBool false); ("status", VStr "failed");
                    ("message", VStr "Payment failed")]) HTTP_400_BAD_REQUEST in
  (fst polled = answer
   /\ payments (snd polled) !! pk
      = Some (updated_payment payment "failed" None None None (Some "Payment failed on Chapa"))
   /\ celery_queue (snd polled) = (celery_queue w ++ [failure_task payment])%list)
  /\ (fst called_back = answer
      /\ payments (snd called_back) !! pk
         = Some (updated_payment payment "failed" None None None (Some "Payment failed"))
      /\ celery_queue (snd called_back) = celery_queue w).
Proof.
  intros Hrow Hpk Hin Htx Href Hask Hsuccess Hstatus polled called_back answer.
  apply ask_returns in Hask as [Hnew Hcall].
  assert (opt_or (Payment.chapa_reference payment) pk
          = get_default (Payment.chapa_reference payment) "") as Hor.
  { unfold truthy in Href. unfold opt_or, str_or.
    destruct (Payment.chapa_reference payment) as [s |]; [| discriminate].
    destruct (String.eqb s ""); [discriminate | reflexivity]. }
  unfold chapa_status in Hstatus.
  split.
  - subst polled. unfold verify_status, get_payment. rewrite Hrow, Hin.
    unfold verify_status_payment. rewrite <- negb_orb.
    change (User.eqb _ user || User.eqb _ user) with (payment_in_queryset user payment).
    rewrite Hin, Href, Hnew, Hcall, Hsuccess, Hstatus. cbn.
    rewrite Hpk, lookup_insert_eq. repeat split.
  - subst called_back. unfold verify. rewrite Htx. cbn [negb get_default].
    rewrite (payment_objects_get_key w pk payment Hrow), Hnew, Hor, Hcall, Hsuccess, Hstatus. cbn.
    rewrite Hpk, lookup_insert_eq. repeat split.
Qed.

Lemma failed_verdict_witness :
  let w := Sample.world "pending" "pending" (Some "REF1") in
  let failed :=
    {| ver_success := true; ver_status := Some "FAILED"; ver_reference := None;
       ver_method := None; ver_amount := None; ver_received_amount := None;
       ver_error := None |} in
  let c := Sample.client Sample.checkout failed in
  length (celery_queue (snd (verify_status c Sample.gebre "P1" w))) = 1%nat
  /\ celery_queue (snd (verify c (Some "P1") w)) = [].
Proof.
  intros w failed c.
  pose proof (failed_verdict c Sample.gebre "P1" (Sample.bill "pending" (Some "REF1")) w failed
                eq_refl eq_refl eq_refl eq_refl eq_refl eq_refl eq_refl eq_refl)
    as ((_ & _ & Hpolled) & (_ & _ & Hback)).
  split; [rewrite Hpolled; reflexivity | exact Hback].
Defined.

(** The payment with another status. *)
Definition payment_with_status (s : string) (p : Payment.t) : Payment.t :=
  {| Payment.payment_id := Payment.payment_id p;
     Payment.booking := Payment.booking p;
     Payment.amount := Payment.amount p;
     Payment.currency := Payment.currency p;
     Payment.status := s;
     Payment.chapa_reference := Payment.chapa_reference p;
     Payment.transaction_id := Payment.transaction_id p;
     Payment.payment_method := Payment.payment_method p;
     Payment.error_message := Payment.error_message p |}.

(** X15. Neither verification reads the status the payment has. Take a
    stored payment and the same state with another status written in its
    row: [verify_status] and the callback [verify] give the same answer,
    make the same gateway call and queue the same task in both, so a
    payment that is [completed] or [failed] is verified, and notified about,
    like a [pending] one. *)
Theorem verification_ignores_status (chapa_client : ChapaAPIClient) (user : User.t)
    (pk : string) (p : Payment.t) (s : string) (w : World) :
  payments w !! pk = Some p ->
  Payment.payment_id p = pk ->
  let w' := save_payment (payment_with_status s p) w in
  (fst (verify_status chapa_client user pk w') = fst (verify_status chapa_client user pk w)
   /\ chapa_calls (snd (verify_status chapa_client user pk w'))
      = chapa_calls (snd (verify_status chapa_client user pk w))
   /\ celery_queue (snd (verify_status chapa_client user pk w'))
      = celery_queue (snd (verify_status chapa_client user pk w)))
  /\ (fst (verify chapa_client (Some pk) w') = fst (verify chapa_client (Some pk) w)
      /\ chapa_calls (snd (verify chapa_client (Some pk) w'))
         = chapa_calls (snd (verify chapa_client (Some pk) w))
      /\ celery_queue (snd (verify chapa_client (Some pk) w'))
         = celery_queue (snd (verify chapa_client (Some pk) w))).
Proof.
  intros Hrow Hpk w'.
  assert (payments w' !! pk = Some (payment_with_status s p)) as Hrow'
    by (cbn; rewrite Hpk; apply lookup_insert_eq).
  split.
  - unfold verify_status, get_payment. rewrite Hrow, Hrow'.
    change (payment_in_queryset user (payment_with_status s p))
      with (payment_in_queryset user p).
    destruct (payment_in_queryset user p); [| repeat split].
    unfold verify_status_payment, update_payment_status, verify_status_except.
    cbn [payment_with_status Payment.booking Payment.chapa_reference].
    view_cases; repeat split.
  - unfold verify. destruct (truthy (Some pk)); cbn [negb get_default]; [| repeat split].
    rewrite (payment_objects_get_key w pk p Hrow), (payment_objects_get_key w' pk _ Hrow').
    unfold update_payment_status, verify_except.
    cbn [payment_with_status Payment.booking Payment.chapa_reference].
    view_cases; repeat split.
Qed.

Lemma verification_ignores_status_witness :
  let c := Sample.client Sample.checkout Sample.verified in
  let w := Sample.world "pending" "pending" (Some "REF1") in
  let w' := save_payment (payment_with_status "failed" (Sample.bill "pending" (Some "REF1"))) w in
  Payment.status <$> payments w' !! "P1" = Some "failed"
  /\ fst (verify_status c Sample.gebre "P1" w') = fst (verify_status c Sample.gebre "P1" w)
  /\ length (celery_queue (snd (verify_status c Sample.gebre "P1" w'))) = 1%nat.
Proof.
  intros c w w'.
  pose proof (verification_ignores_status c Sample.gebre "P1"
                (Sample.bill "pending" (Some "REF1")) "failed" w eq_refl eq_refl)
    as [(Hanswer & _ & Hqueue) _].
  split; [reflexivity |]. split; [exact Hanswer |].
  fold w' in Hqueue. rewrite Hqueue. reflexivity.
Defined.

(** ** More on the e-mail tasks *)

Lemma run_task_step (t : Task) (send_mail : nat -> option string) (retries : nat) :
  run_task t send_mail retries
  = match send_mail retries with
    | None =>
      {| run_log := [(INFO, task_info t)];
         run_countdowns := [];
         run_final := Sent ("Email sent successfully to " +:+ task_guest_email t) |}
    | Some exc =>
      if lt_dec retries max_retries then
        {| run_log := (ERROR, task_error t exc) :: run_log (run_task t send_mail (S retries));
           run_countdowns := countdown retries :: run_countdowns (run_task t send_mail (S retries));
           run_final := run_final (run_task t send_mail (S retries)) |}
      else
        {| run_log := [(ERROR, task_error t exc)];
           run_countdowns := [];
           run_final := GaveUp exc |}
    end.
Proof.
  funelim (run_task t send_mail retries).
  - rewrite Heq. reflexivity.
  - rewrite Heq0, Heq. reflexivity.
  - rewrite Heq0, Heq. reflexivity.
Qed.

Lemma run_task_succeeds_from (t : Task) (send_mail : nat -> option string) (k retries : nat) :
  (retries + k <= max_retries)%nat ->
  (forall j, (j < k)%nat -> send_mail (retries + j)%nat <> None) ->
  send_mail (retries + k)%nat = None ->
  let run := run_task t send_mail retries in
  run_final run = Sent ("Email sent successfully to " +:+ task_guest_email t)
  /\ run_countdowns run = countdown <$> seq retries k
  /\ count_errors (run_log run) = k
  /\ last (run_log run) = Some (INFO, task_info t).
Proof.
  revert retries. induction k as [| k IH]; intros retries Hle Hfail Hsent; cbn zeta.
  - rewrite Nat.add_0_r in Hsent. rewrite run_task_step, Hsent. repeat split.
  - rewrite run_task_step.
    destruct (send_mail retries) as [exc |] eqn:Hfirst.
    2: { exfalso. apply (Hfail 0%nat); [lia |]. rewrite Nat.add_0_r. exact Hfirst. }
    destruct (lt_dec retries max_retries) as [_ | Hge]; [| lia].
    destruct (IH (S retries)) as (Hfinal & Hcd & Herr & Hlast).
    + lia.
    + intros j Hj. replace (S retries + j)%nat with (retries + S j)%nat by lia.
      apply Hfail. lia.
    + replace (S retries + k)%nat with (retries + S k)%nat by lia. exact Hsent.
    + cbn [run_final run_countdowns run_log]. split; [exact Hfinal |]. split; [| split].
      * cbn [seq fmap list_fmap]. f_equal. exact Hcd.
      * unfold count_errors in *. cbn [List.filter fst length]. lia.
      * rewrite last_cons, Hlast. reflexivity.
Qed.

(** X16. A task whose mail goes through at its execution numbered [k], with
    [k] at most 3 and every execution before it failing, ends by returning
    [Email sent successfully to] and the guest's address: it has asked for
    [k] retries, after 60, 120, ... seconds, and has logged [k] errors and
    then the record of the mail sent. With [k = 0] nothing is retried and no
    error is logged. *)
Theorem run_task_succeeds (t : Task) (send_mail : nat -> option string) (k : nat) :
  (k <= max_retries)%nat ->
  (forall j, (j < k)%nat -> send_mail j <> None) ->
  send_mail k = None ->
  let run := run_task t send_mail 0 in
  run_final run = Sent ("Email sent successfully to " +:+ task_guest_email t)
  /\ run_countdowns run = countdown <$> seq 0 k
  /\ count_errors (run_log run) = k
  /\ last (run_log run) = Some (INFO, task_info t).
Proof.
  intros Hle Hfail Hsent. apply (run_task_succeeds_from t send_mail k 0); assumption.
Qed.

Lemma run_task_succeeds_witness :
  let t := confirmation_task (Sample.bill "completed" (Some "REF1")) Sample.verified in
  let flaky := fun n : nat => if (n <? 2)%nat then Some "Connection refused" else None in
  let run := run_task t flaky 0 in
  run_final run = Sent "Email sent successfully to gebre@example.com"
  /\ run_countdowns run = [60; 120]
  /\ count_errors (run_log run) = 2%nat.
Proof.
  intros t flaky run.
  assert (forall j, (j < 2)%nat -> flaky j <> None) as Hfail.
  { intros j Hj. destruct j as [| [| j]]; [discriminate | discriminate | lia]. }
  pose proof (run_task_succeeds t flaky 2 ltac:(unfold max_retries; lia) Hfail eq_refl)
    as (Hfinal & Hcd & Herr & _).
  split; [exact Hfinal |]. split; [exact Hcd | exact Herr].
Defined.

Lemma run_task_agree_from (t : Task) (send_mail send_mail' : nat -> option string) (n retries : nat) :
  (retries + n = max_retries)%nat ->
  (forall j, (retries <= j <= max_retries)%nat -> send_mail j = send_mail' j) ->
  run_task t send_mail retries = run_task t send_mail' retries.
Proof.
  revert retries. induction n as [| n IH]; intros retries Hn Hagree.
  - rewrite (run_task_step t send_mail), (run_task_step t send_mail'),
      <- (Hagree retries) by lia.
    destruct (send_mail retries); [| reflexivity].
    destruct (lt_dec retries max_retries); [lia | reflexivity].
  - rewrite (run_task_step t send_mail), (run_task_step t send_mail'),
      <- (Hagree retries) by lia.
    destruct (send_mail retries); [| reflexivity].
    destruct (lt_dec retries max_retries); [| reflexivity].
    rewrite (IH (S retries)); [reflexivity | lia |].
    intros j Hj. apply Hagree. lia.
Qed.

(** X17. A task is never executed a fifth time: what [send_mail] would do in
    an execution numbered 4 or more does not matter to the run. Two mail
    transports that behave alike in the executions 0 to 3 give the same
    log, the same delays and the same end. *)
Theorem run_task_four_executions (t : Task) (send_mail send_mail' : nat -> option string) :
  (forall j, (j <= 3)%nat -> send_mail j = send_mail' j) ->
  run_task t send_mail 0 = run_task t send_mail' 0.
Proof.
  intros Hagree. apply (run_task_agree_from t send_mail send_mail' max_retries 0).
  - reflexivity.
  - intros j [_ Hj]. apply Hagree. exact Hj.
Qed.

Lemma run_task_four_executions_witness :
  let t := failure_task (Sample.bill "failed" (Some "REF1")) in
  let down := fun _ : nat => Some "Connection refused" in
  let back_at_4 := fun n : nat => if (n <? 4)%nat then Some "Connection refused" else None in
  run_task t back_at_4 0 = run_task t down 0
  /\ run_final (run_task t back_at_4 0) = GaveUp "Connection refused".
Proof.
  intros t down back_at_4. split; [| reflexivity].
  apply run_task_four_executions.
  intros j Hj. destruct j as [| [| [| [| j]]]]; try reflexivity. lia.
Defined.

(** The seconds a run has asked to wait, in all. *)
Definition total_wait (run : TaskRun) : Z := fold_right Z.add 0 (run_countdowns run).

(** X18. Whatever the mail transport does, the delays a task asks for add up
    to 420 seconds at most (60 + 120 + 240), and to exactly that when the
    task is given up. *)
Theorem run_task_total_wait (t : Task) (send_mail : nat -> option string) :
  let run := run_task t send_mail 0 in
  0 <= total_wait run <= 420
  /\ (forall exc, run_final run = GaveUp exc -> total_wait run = 420).
Proof.
  intros run. destruct (run_task_from t send_mail 0) as (Hlen & Hcd & Hfin).
  fold run in Hlen, Hcd, Hfin. unfold total_wait. change max_retries with 3%nat in *.
  rewrite Hcd.
  destruct (length (run_countdowns run)) as [| [| [| [| n]]]]; [| | | | lia].
  all: split; [vm_compute; split; discriminate |].
  all: intros exc Hexc; rewrite Hexc in Hfin; try reflexivity; lia.
Qed.

(** ** The deployment script *)

(** The accounts with a given name. *)
Definition named (name : string) (users : list AuthUser) : list AuthUser :=
  List.filter (fun u => String.eqb (auth_username u) name) users.

Lemma named_none (name : string) (users : list AuthUser) :
  username_exists name users = false -> named name users = [].
Proof.
  unfold username_exists, named. induction users as [| u users IH]; [reflexivity |].
  cbn. destruct (String.eqb (auth_username u) name); [discriminate | exact IH].
Qed.

(** X19. The script can be run again and again. After a run an account
    named [admin] exists, and a second run changes nothing and prints that
    the superuser already exists. An account named [admin] that was there
    before, superuser or not, is left exactly as it was, and no second one
    is made; when there was none, exactly one is added, a superuser, and no
    other account is touched. *)
Theorem create_superuser_script_again (users : list AuthUser) :
  let after := fst (create_superuser_script users) in
  username_exists "admin" after = true
  /\ create_superuser_script after = (after, ["✓ Superuser already exists!"])
  /\ (username_exists "admin" users = true -> after = users)
  /\ (username_exists "admin" users = false ->
        exists admin,
          after = (users ++ [admin])%list
          /\ named "admin" after = [admin]
          /\ is_superuser admin = true
          /\ auth_email admin = "admin@alxtravelapp.com").
Proof.
  intros after. subst after. unfold create_superuser_script.
  destruct (username_exists "admin" users) eqn:Hexists; cbn [negb fst].
  - rewrite Hexists. cbn [negb]. repeat split. discriminate.
  - assert (username_exists "admin"
              (create_superuser "admin" "admin@alxtravelapp.com" "admin123" users) = true) as Hnow.
    { unfold username_exists, create_superuser. rewrite existsb_app. cbn. apply orb_true_r. }
    rewrite Hnow. cbn [negb]. split; [reflexivity |]. split; [reflexivity |].
    split; [discriminate |]. intros _. eexists. split; [reflexivity |].
    split; [| split; reflexivity].
    unfold named, create_superuser. rewrite List.filter_app. fold (named "admin" users).
    rewrite (named_none "admin" users Hexists). reflexivity.
Qed.

Lemma create_superuser_script_again_witness :
  let plain := {| auth_username := "admin"; auth_email := "me@example.com";
                  raw_password := "secret"; is_staff := false; is_superuser := false |} in
  fst (create_superuser_script [plain]) = [plain]
  /\ length (fst (create_superuser_script [])) = 1%nat.
Proof.
  intros plain.
  pose proof (create_superuser_script_again [plain]) as (_ & _ & Hkept & _).
  split; [apply Hkept; reflexivity | reflexivity].
Defined.

(** ** The listings of a host *)

(** X20. [my_listings] answers a user that is not authenticated with 401.
    For a user that is, it lists exactly the stored listings whose host the
    user is, and these are exactly the stored listings [perform_update] and
    [perform_destroy] accept from that user: for any other one they raise
    [PermissionDenied] and leave the state as it was. *)
Theorem my_listings_are_own (user : User.t) (w : World) (l : Listing.t)
    (save delete : World -> World) :
  my_listings None w = inl (Response (Data [("detail", VStr "Authentication required.")]) 401)
  /\ exists ls,
       my_listings (Some user) w = inr ls
       /\ (l ∈ ls <-> (exists k, listings w !! k = Some l) /\ User.eqb (Listing.host l) user = true)
       /\ (l ∈ ls ->
             perform_update user l save w = (None, save w)
             /\ perform_destroy user l delete w = (None, delete w))
       /\ ((exists k, listings w !! k = Some l) -> l ∉ ls ->
             perform_update user l save w = (Some "You can only update your own listings.", w)
             /\ perform_destroy user l delete w
                = (Some "You can only delete your own listings.", w)).
Proof.
  split; [reflexivity |]. eexists. split; [reflexivity |].
  rewrite elem_of_filter_rows. unfold perform_update, perform_destroy.
  split; [reflexivity |]. split.
  - intros [_ ->]. split; reflexivity.
  - intros Hrow Hnot. destruct (User.eqb (Listing.host l) user); [| split; reflexivity].
    exfalso. apply Hnot. split; [exact Hrow | reflexivity].
Qed.

Lemma my_listings_are_own_witness :
  my_listings (Some Sample.hana) Sample.empty_world = inr [Sample.villa]
  /\ my_listings (Some Sample.gebre) Sample.empty_world = inr []
  /\ fst (perform_update Sample.gebre Sample.villa (fun w => w) Sample.empty_world)
     = Some "You can only update your own listings.".
Proof.
  pose proof (my_listings_are_own Sample.gebre Sample.empty_world Sample.villa
                (fun w => w) (fun w => w)) as (_ & ls & Hls & _ & _ & Hrefused).
  split; [reflexivity |]. split; [reflexivity |].
  injection Hls as <-.
  destruct Hrefused as [-> _]; [exists "L1"%string; reflexivity | | reflexivity].
  intros Hin. apply list_elem_of_In in Hin. exact Hin.
Defined.

(** ** The synchronous e-mails *)

(** The name a mail greets with. *)
Definition greeting (mail : Mail) : option value :=
  snd <$> List.find (fun kv => String.eqb (fst kv) "guest_name") (mail_context mail).

(** X21. The synchronous e-mail functions never raise: each answers [True]
    exactly when [send_mail] returned, and otherwise [False] with one
    [ERROR] record that carries the exception's text. The mail goes from
    [EMAIL_HOST_USER] to the booking's guest alone, and greets the guest by
    first name, or by username when the first name is empty. *)
Theorem synchronous_emails_report (EMAIL_HOST_USER : string) (send_mail : Mail -> option string)
    (booking_obj : Booking.t) (payment_obj : Payment.t) (error_message : string) :
  let report (answer : bool * list (level * string) * Mail) (failed : string) : Prop :=
    let '(sent, records, mail) := answer in
    (sent = true <-> send_mail mail = None)
    /\ (forall exc, send_mail mail = Some exc ->
          sent = false /\ records = [(ERROR, failed +:+ exc)])
    /\ length records = 1%nat
    /\ mail_from mail = EMAIL_HOST_USER
    /\ mail_recipients mail = [User.email (Booking.guest booking_obj)]
    /\ greeting mail
       = Some (VStr (if String.eqb (User.first_name (Booking.guest booking_obj)) ""
                     then User.username (Booking.guest booking_obj)
                     else User.first_name (Booking.guest booking_obj))) in
  report (send_payment_confirmation_email EMAIL_HOST_USER send_mail booking_obj payment_obj)
    "Failed to send payment confirmation email: "
  /\ report (send_payment_failure_email EMAIL_HOST_USER send_mail booking_obj payment_obj
               error_message)
       "Failed to send payment failure email: ".
Proof.
  cbv zeta. unfold send_payment_confirmation_email, send_payment_failure_email.
  split.
  - destruct (send_mail _) as [e |] eqn:Hsend; cbv beta iota; rewrite Hsend.
    + split; [split; discriminate |]. split; [| repeat split].
      intros exc Hexc. injection Hexc as <-. split; reflexivity.
    + split; [split; reflexivity |]. split; [discriminate | repeat split].
  - destruct (send_mail _) as [e |] eqn:Hsend; cbv beta iota; rewrite Hsend.
    + split; [split; discriminate |]. split; [| repeat split].
      intros exc Hexc. injection Hexc as <-. split; reflexivity.
    + split; [split; reflexivity |]. split; [discriminate | repeat split].
Qed.

(** ** Rows that are neither made nor lost *)

Lemma booking_payment_some (w : World) (b : Booking.t) (p : Payment.t) :
  booking_payment w b = Some p -> exists k, payments w !! k = Some p.
Proof.
  unfold booking_payment. intros Hfind. apply find_some in Hfind as [Hin _].
  apply list_elem_of_In, (elem_of_rows (payments w)) in Hin. exact Hin.
Qed.

Lemma dom_save_updated (p : Payment.t) (status : string) (r t m e : option string) (w : World) :
  well_keyed w ->
  (exists k, payments w !! k = Some p) ->
  dom (payments (save_payment (updated_payment p status r t m e) w)) = dom (payments w).
Proof.
  intros [_ Hkeys] [k Hk]. cbn. apply dom_insert_lookup_L.
  rewrite (Hkeys k p Hk). rewrite Hk. eauto.
Qed.

(** X22. In a state where rows are stored under their keys, the
    verifications neither make nor lose a payment row: after [verify_status]
    and after [verify] the payments table has the keys it had. The same
    holds for [initiate_payment] on a booking that has its payment, and the
    bookings table keeps its keys through [cancel] and [confirm]. *)
Theorem rows_neither_made_nor_lost (chapa_client : ChapaAPIClient) (user : User.t)
    (pk : string) (tx_ref : option string) (w : World) :
  well_keyed w ->
  dom (payments (snd (verify_status chapa_client user pk w))) = dom (payments w)
  /\ dom (payments (snd (verify chapa_client tx_ref w))) = dom (payments w)
  /\ (forall b p, get_booking w user pk = Some b -> booking_payment w b = Some p ->
        dom (payments (snd (initiate_payment chapa_client user pk w))) = dom (payments w))
  /\ dom (bookings (snd (cancel user pk w))) = dom (bookings w)
  /\ dom (bookings (snd (confirm user pk w))) = dom (bookings w).
Proof.
  intros Hw. split; [| split; [| split; [| split]]].
  - unfold verify_status, get_payment.
    destruct (payments w !! pk) as [p |] eqn:Hrow; [| reflexivity].
    destruct (payment_in_queryset user p); [| reflexivity].
    unfold verify_status_payment, update_payment_status, verify_status_except.
    view_cases; cbn [snd delay logger payments]; try reflexivity.
    all: apply (dom_save_updated p _ _ _ _ _ (call_chapa _ w) Hw); eauto.
  - unfold verify. destruct (negb (truthy tx_ref)); [reflexivity |].
    destruct (payment_objects_get w _) as [p | |] eqn:Hget; [| reflexivity | reflexivity].
    apply payment_objects_get_found in Hget.
    unfold update_payment_status, verify_except.
    view_cases; cbn [snd delay logger payments]; try reflexivity.
    all: apply (dom_save_updated p _ _ _ _ _ (call_chapa _ w) Hw); exact Hget.
  - intros b p Hget Hpayment. unfold initiate_payment, initiate_payment_booking,
      payment_of_booking. rewrite Hget, Hpayment.
    apply booking_payment_some in Hpayment.
    unfold update_payment_status, initiate_payment_except.
    view_cases; cbn [snd delay logger payments]; try reflexivity.
    all: apply (dom_save_updated p _ _ _ _ _ (call_chapa _ w) Hw); eauto.
  - unfold cancel. destruct (get_booking w user pk) as [b |] eqn:Hget; [| reflexivity].
    apply get_booking_some in Hget as [Hrow _]. unfold cancel_booking.
    view_cases; try reflexivity. cbn. apply dom_insert_lookup_L.
    destruct Hw as [Hkeys _]. rewrite (Hkeys pk b Hrow), Hrow. eauto.
  - unfold confirm. destruct (get_booking w user pk) as [b |] eqn:Hget; [| reflexivity].
    apply get_booking_some in Hget as [Hrow _]. unfold confirm_booking.
    view_cases; try reflexivity. cbn. apply dom_insert_lookup_L.
    destruct Hw as [Hkeys _]. rewrite (Hkeys pk b Hrow), Hrow. eauto.
Qed.

Lemma rows_neither_made_nor_lost_witness :
  let w := Sample.world "pending" "pending" (Some "REF1") in
  let c := Sample.client Sample.checkout Sample.verified in
  dom (payments (snd (verify_status c Sample.gebre "P1" w))) = dom (payments w)
  /\ dom (payments (snd (initiate_payment c Sample.gebre "B1" w))) = dom (payments w).
Proof.
  intros w c.
  pose proof (rows_neither_made_nor_lost c Sample.gebre "P1" None w (well_keyed_sample _ _ _))
    as (Hverify & _).
  pose proof (rows_neither_made_nor_lost c Sample.gebre "B1" None w (well_keyed_sample _ _ _))
    as (_ & _ & Hstart & _).
  split; [exact Hverify |].
  apply (Hstart (Sample.stay "pending") (Sample.bill "pending" (Some "REF1"))); reflexivity.
Defined.

(** * The guards of the views, as a request meets them *)

(** ** Cancelling and confirming a booking *)

(** C4, as the view has it. A request to cancel a stored booking never ends
    in [PermissionDenied]. A user who is neither the booking's guest nor the
    listing's host is answered [Http404] by [get_object]; the guest and the
    host are refused with a 400 answer unless the status is [pending] or
    [confirmed], and otherwise the booking is saved with status
    [cancelled]. A booking already [cancelled] is never cancelled again:
    the answer is not a success and the state is left as it was. *)
Theorem cancel_view_guarded (user : User.t) (pk : string) (b : Booking.t) (w : World) :
  bookings w !! pk = Some b ->
  let party :=
    User.eqb (Booking.guest b) user || User.eqb (Listing.host (Booking.listing b)) user in
  let open := str_in (Booking.status b) ["pending"; "confirmed"] in
  let cancelled := Booking.set_status "cancelled" b in
  forbidden (fst (cancel user pk w)) = false
  /\ (party = false -> cancel user pk w = (Http404, w))
  /\ (party = true -> open = false ->
        cancel user pk w
        = (Response
             (Data [("detail", VStr ("Cannot cancel a " +:+ Booking.status b +:+ " booking."))])
             HTTP_400_BAD_REQUEST, w)
        /\ invalid_transition (fst (cancel user pk w)) = true)
  /\ (party = true -> open = true ->
        cancel user pk w
        = (Response (BookingData cancelled) HTTP_200_OK, save_booking cancelled w)
        /\ Booking.status cancelled = "cancelled"
        /\ bookings (save_booking cancelled w) !! Booking.booking_id b = Some cancelled)
  /\ (Booking.status b = "cancelled" ->
        succeeded (fst (cancel user pk w)) = false /\ snd (cancel user pk w) = w).
Proof.
  intros Hrow party open cancelled. subst party open cancelled.
  rewrite (cancel_stored user pk b w Hrow).
  change (User.eqb (Booking.guest b) user || User.eqb (Listing.host (Booking.listing b)) user)
    with (booking_in_queryset user b).
  destruct (booking_in_queryset user b).
  - destruct (str_in (Booking.status b) ["pending"; "confirmed"]) eqn:Hopen.
    + split; [reflexivity |]. split; [discriminate |]. split; [discriminate |]. split.
      * intros _ _. split; [reflexivity |]. split; [reflexivity | apply lookup_insert_eq].
      * intros Hs. rewrite Hs in Hopen. discriminate Hopen.
    + split; [reflexivity |]. split; [discriminate |]. split; [| split; [discriminate |]].
      * intros _ _. split; reflexivity.
      * intros _. split; reflexivity.
  - split; [reflexivity |]. split; [reflexivity |]. split; [discriminate |].
    split; [discriminate |]. intros _. split; reflexivity.
Qed.

Lemma cancel_view_guarded_witness :
  let w := Sample.world "confirmed" "pending" None in
  let gone := Sample.world "cancelled" "pending" None in
  cancel Sample.marta "B1" w = (Http404, w)
  /\ fst (cancel Sample.hana "B1" w) = Response (BookingData (Sample.stay "cancelled")) HTTP_200_OK
  /\ cancel Sample.gebre "B1" gone
     = (Response (Data [("detail", VStr "Cannot cancel a cancelled booking.")])
          HTTP_400_BAD_REQUEST, gone).
Proof.
  intros w gone.
  pose proof (cancel_view_guarded Sample.marta "B1" (Sample.stay "confirmed") w eq_refl)
    as (_ & Hstranger & _).
  pose proof (cancel_view_guarded Sample.hana "B1" (Sample.stay "confirmed") w eq_refl)
    as (_ & _ & _ & Hhost & _).
  pose proof (cancel_view_guarded Sample.gebre "B1" (Sample.stay "cancelled") gone eq_refl)
    as (_ & _ & Hguest & _).
  split; [apply Hstranger; reflexivity |]. split.
  - destruct (Hhost eq_refl eq_refl) as [-> _]. reflexivity.
  - destruct (Hguest eq_refl eq_refl) as [-> _]. reflexivity.
Defined.

(** C4, as the spec has it, fails: a user who is neither the guest nor the
    host of a stored booking asks to cancel it, and the request does not
    fail with [PermissionDenied] but with [Http404]. *)
Lemma cancel_stranger_not_forbidden :
  let w := Sample.world "pending" "pending" None in
  bookings w !! "B1" = Some (Sample.stay "pending")
  /\ User.eqb (Booking.guest (Sample.stay "pending")) Sample.marta = false
  /\ User.eqb (Listing.host (Booking.listing (Sample.stay "pending"))) Sample.marta = false
  /\ cancel Sample.marta "B1" w = (Http404, w)
  /\ forbidden (fst (cancel Sample.marta "B1" w)) = false.
Proof. cbv zeta. repeat split. Qed.

(** C5, as the view has it. Confirming a stored booking succeeds, and saves
    it with status [confirmed], exactly when the user is the listing's host
    and the status is [pending]. A user who is neither guest nor host is
    answered [Http404]; a guest who is not the host is refused with
    [PermissionDenied]; the host is refused with a 400 answer for any other
    status. A refusal leaves the state as it was. *)
Theorem confirm_view_guarded (user : User.t) (pk : string) (b : Booking.t) (w : World) :
  bookings w !! pk = Some b ->
  let party :=
    User.eqb (Booking.guest b) user || User.eqb (Listing.host (Booking.listing b)) user in
  let host := User.eqb (Listing.host (Booking.listing b)) user in
  let confirmed := Booking.set_status "confirmed" b in
  (party = false -> confirm user pk w = (Http404, w))
  /\ (party = true -> host = false ->
        confirm user pk w = (PermissionDenied "Only the listing host can confirm bookings.", w))
  /\ (host = true -> Booking.status b <> "pending" ->
        confirm user pk w
        = (Response
             (Data [("detail", VStr ("Cannot confirm a " +:+ Booking.status b +:+ " booking."))])
             HTTP_400_BAD_REQUEST, w))
  /\ (host = true -> Booking.status b = "pending" ->
        confirm user pk w
        = (Response (BookingData confirmed) HTTP_200_OK, save_booking confirmed w)
        /\ Booking.status confirmed = "confirmed"
        /\ bookings (save_booking confirmed w) !! Booking.booking_id b = Some confirmed)
  /\ (succeeded (fst (confirm user pk w)) = true ->
        host = true /\ Booking.status b = "pending")
  /\ (succeeded (fst (confirm user pk w)) = false ->
        (fst (confirm user pk w) = Http404
         \/ forbidden (fst (confirm user pk w)) = true
         \/ invalid_transition (fst (confirm user pk w)) = true)
        /\ snd (confirm user pk w) = w).
Proof.
  intros Hrow party host confirmed. subst party host confirmed.
  rewrite (confirm_stored user pk b w Hrow). unfold booking_in_queryset.
  destruct (User.eqb (Booking.guest b) user);
    destruct (User.eqb (Listing.host (Booking.listing b)) user); cbn [orb].
  all: destruct (String.eqb_spec (Booking.status b) "pending") as [Hs | Hs].
  all: repeat split; intros; try discriminate; try reflexivity; try congruence.
  all: try apply lookup_insert_eq.
  all: first [left; reflexivity | right; left; reflexivity | right; right; reflexivity].
Qed.

Lemma confirm_view_guarded_witness :
  let w := Sample.world "pending" "pending" None in
  confirm Sample.marta "B1" w = (Http404, w)
  /\ confirm Sample.gebre "B1" w
     = (PermissionDenied "Only the listing host can confirm bookings.", w)
  /\ fst (confirm Sample.hana "B1" w)
     = Response (BookingData (Sample.stay "confirmed")) HTTP_200_OK.
Proof.
  intros w.
  pose proof (confirm_view_guarded Sample.marta "B1" (Sample.stay "pending") w eq_refl)
    as (Hstranger & _).
  pose proof (confirm_view_guarded Sample.gebre "B1" (Sample.stay "pending") w eq_refl)
    as (_ & Hguest & _).
  pose proof (confirm_view_guarded Sample.hana "B1" (Sample.stay "pending") w eq_refl)
    as (_ & _ & _ & Hhost & _).
  split; [apply Hstranger; reflexivity |]. split; [apply Hguest; reflexivity |].
  destruct (Hhost eq_refl eq_refl) as [-> _]. reflexivity.
Defined.

(** C5, as the spec has it, fails: a user who is neither the guest nor the
    host of a stored pending booking asks to confirm it, and the request
    fails with [Http404], which is neither [PermissionDenied] nor the 400
    answer of a status that does not allow the transition. *)
Lemma confirm_stranger_not_found :
  let w := Sample.world "pending" "pending" None in
  bookings w !! "B1" = Some (Sample.stay "pending")
  /\ confirm Sample.marta "B1" w = (Http404, w)
  /\ forbidden (fst (confirm Sample.marta "B1" w)) = false
  /\ invalid_transition (fst (confirm Sample.marta "B1" w)) = false.
Proof. cbv zeta. repeat split. Qed.

(** ** Starting a payment *)

(** C6, as the view has it. A request to start the payment of a stored
    booking is answered [Http404] for a user who is neither its guest nor
    the listing's host, is refused with [PermissionDenied] for the host who
    is not the guest, and is refused with a 400 answer for the guest when
    the booking's payment has a status other than [pending]. In none of
    these cases is anything written or any method of the gateway client
    called, whatever the client. *)
Theorem initiate_payment_view_guarded (chapa_client : ChapaAPIClient) (user : User.t)
    (pk : string) (b : Booking.t) (payment : Payment.t) (w : World) :
  bookings w !! pk = Some b ->
  let party :=
    User.eqb (Booking.guest b) user || User.eqb (Listing.host (Booking.listing b)) user in
  let guest := User.eqb (Booking.guest b) user in
  let answer := initiate_payment chapa_client user pk w in
  (party = false -> answer = (Http404, w))
  /\ (party = true -> guest = false ->
        answer = (PermissionDenied "You can only initiate payment for your own bookings.", w))
  /\ (guest = true ->
      booking_payment w b = Some payment ->
      Payment.status payment <> "pending" ->
        answer
        = (Response
             (Data [("detail",
                     VStr ("Cannot initiate payment for " +:+ Payment.status payment +:+ " payment."))])
             HTTP_400_BAD_REQUEST, w)
        /\ invalid_transition (fst answer) = true)
  /\ (booking_payment w b = Some payment ->
      Payment.status payment <> "pending" ->
        succeeded (fst answer) = false
        /\ snd answer = w
        /\ chapa_calls (snd answer) = chapa_calls w).
Proof.
  intros Hrow party guest answer. subst party guest answer.
  unfold initiate_payment. rewrite (get_booking_queryset w user pk b Hrow).
  change (User.eqb (Booking.guest b) user || User.eqb (Listing.host (Booking.listing b)) user)
    with (booking_in_queryset user b).
  destruct (booking_in_queryset user b) eqn:Hin.
  - unfold initiate_payment_booking, payment_of_booking.
    destruct (User.eqb (Booking.guest b) user); cbn [negb].
    + split; [discriminate |]. split; [discriminate |].
      split; intros; repeat match goal with
        | H : booking_payment _ _ = Some _ |- _ => rewrite H; clear H
        | H : Payment.status _ <> "pending" |- _ =>
            apply String.eqb_neq in H; rewrite H; clear H
        end; repeat split.
    + split; [discriminate |]. split; [reflexivity |]. split; [discriminate |].
      intros _ _. repeat split.
  - unfold booking_in_queryset in Hin. apply orb_false_iff in Hin as [-> _].
    split; [reflexivity |]. split; [discriminate |]. split; [discriminate |].
    intros _ _. repeat split.
Qed.

(** The scenario of the spec: a payment that has [failed] cannot be started
    again, and the gateway is not called. *)
Lemma initiate_payment_view_guarded_witness :
  let w := Sample.world "pending" "failed" None in
  let c := Sample.client Sample.checkout Sample.verified in
  initiate_payment c Sample.gebre "B1" w
  = (Response (Data [("detail", VStr "Cannot initiate payment for failed payment.")])
       HTTP_400_BAD_REQUEST, w)
  /\ chapa_calls (snd (initiate_payment c Sample.gebre "B1" w)) = []
  /\ initiate_payment c Sample.hana "B1" w
     = (PermissionDenied "You can only initiate payment for your own bookings.", w)
  /\ initiate_payment c Sample.marta "B1" w = (Http404, w).
Proof.
  intros w c.
  pose proof (initiate_payment_view_guarded c Sample.gebre "B1" (Sample.stay "pending")
                (Sample.bill "failed" None) w eq_refl) as (_ & _ & Hguest & Hcalls).
  pose proof (initiate_payment_view_guarded c Sample.hana "B1" (Sample.stay "pending")
                (Sample.bill "failed" None) w eq_refl) as (_ & Hhost & _).
  pose proof (initiate_payment_view_guarded c Sample.marta "B1" (Sample.stay "pending")
                (Sample.bill "failed" None) w eq_refl) as (Hstranger & _).
  split; [apply Hguest; [reflexivity | reflexivity | discriminate] |].
  split; [destruct (Hcalls eq_refl ltac:(discriminate)) as (_ & _ & ->); reflexivity |].
  split; [apply Hhost; reflexivity | apply Hstranger; reflexivity].
Defined.

(** C6, as the spec has it, fails: a user who is neither the guest nor the
    host of a stored booking, so an actor other than the guest, asks to
    start its payment, and the request fails with [Http404], not with
    [PermissionDenied]. *)
Lemma initiate_payment_stranger_not_found :
  let w := Sample.world "pending" "pending" None in
  let c := Sample.client Sample.checkout Sample.verified in
  bookings w !! "B1" = Some (Sample.stay "pending")
  /\ User.eqb (Booking.guest (Sample.stay "pending")) Sample.marta = false
  /\ initiate_payment c Sample.marta "B1" w = (Http404, w)
  /\ forbidden (fst (initiate_payment c Sample.marta "B1" w)) = false.
Proof. cbv zeta. repeat split. Qed.

(** ** Verifying without a verdict *)

(** C8, as the view has it. The guest or the host of a stored payment that
    has a gateway reference asks for its status. Unless the gateway gives a
    terminal verdict, no payment row, no booking row and no queued
    notification changes. A status still pending is no error: it is
    answered 200, with success and the status [pending]. An unsuccessful
    result is answered 400 with the gateway's error. A [ValueError] is
    answered 500 with an error that starts [Configuration error:], and is
    logged, whether it comes from building the client without its
    credentials or from the client's [verify_payment]: the two get the same
    answer. Any other exception is answered 500 with an error that starts
    [Unexpected error:], which no [Configuration error:] text equals. *)
Theorem verify_status_view_without_verdict (chapa_client other : ChapaAPIClient)
    (user : User.t) (pk : string) (payment : Payment.t) (w : World) :
  payments w !! pk = Some payment ->
  payment_in_queryset user payment = true ->
  truthy (Payment.chapa_reference payment) = true ->
  let reference := get_default (Payment.chapa_reference payment) "" in
  let answer := verify_status chapa_client user pk w in
  (terminal_verdict chapa_client reference = false ->
     payments (snd answer) = payments w
     /\ bookings (snd answer) = bookings w
     /\ celery_queue (snd answer) = celery_queue w)
  /\ (forall result,
        ask chapa_client reference = Returns result ->
        ver_success result = true ->
        chapa_status result <> "success" -> chapa_status result <> "failed" ->
        fst answer
        = Response
            (Data [("success", VBool true);
                   ("status", VStr "pending");
                   ("message", VStr "Payment is still pending")])
            HTTP_200_OK
        /\ succeeded (fst answer) = true
        /\ error_of (fst answer) = None)
  /\ (forall result,
        ask chapa_client reference = Returns result ->
        ver_success result = false ->
        status_code (fst answer) = Some HTTP_400_BAD_REQUEST
        /\ error_of (fst answer) = Some (get_default (ver_error result) "Failed to verify payment"))
  /\ (forall msg,
        ask chapa_client reference = Raises (ValueError msg) ->
        status_code (fst answer) = Some HTTP_500_INTERNAL_SERVER_ERROR
        /\ error_of (fst answer) = Some ("Configuration error: " +:+ msg)
        /\ (ERROR, "Configuration error: " +:+ msg) ∈ log (snd answer))
  /\ (forall msg,
        chapa_new chapa_client = Some (ValueError msg) ->
        chapa_new other = None ->
        chapa_verify_payment other reference = Raises (ValueError msg) ->
        fst (verify_status other user pk w) = fst answer)
  /\ (forall msg,
        ask chapa_client reference = Raises (Exception msg) ->
        status_code (fst answer) = Some HTTP_500_INTERNAL_SERVER_ERROR
        /\ error_of (fst answer) = Some ("Unexpected error: " +:+ msg)
        /\ (forall msg', error_of (fst answer) <> Some ("Configuration error: " +:+ msg'))).
Proof.
  intros Hrow Hin Href reference answer.
  assert (forall c, verify_status c user pk w = verify_status_payment c user payment w) as Hview
    by (intros c; unfold verify_status, get_payment; rewrite Hrow, Hin; reflexivity).
  subst answer. rewrite !Hview.
  destruct (verify_status_payment_without_verdict chapa_client user payment w Hin Href)
    as (Hframe & Hpending & Herror & Hvalue & Hother).
  fold reference in Hframe, Hpending, Herror, Hvalue, Hother.
  split; [exact Hframe |]. split; [| split; [exact Herror |]].
  - intros result Hask Hsuccess Hs Hf. rewrite (Hpending result Hask Hsuccess Hs Hf).
    repeat split.
  - split; [exact Hvalue |]. split; [| exact Hother].
    intros msg Hnew Hnew' Hcall. unfold verify_status_payment. rewrite <- negb_orb.
    change (User.eqb _ user || User.eqb _ user) with (payment_in_queryset user payment).
    rewrite Hin, Href, Hnew, Hnew'. cbn [negb]. fold reference. rewrite Hcall. reflexivity.
Qed.

Lemma verify_status_view_without_verdict_witness :
  let w := Sample.world "pending" "pending" (Some "REF1") in
  let unconfigured := verify_status Sample.unconfigured Sample.gebre "P1" w in
  let pending :=
    verify_status (Sample.client Sample.checkout Sample.still_pending) Sample.gebre "P1" w in
  let refused :=
    verify_status (Sample.client Sample.checkout Sample.refused) Sample.hana "P1" w in
  (payments (snd unconfigured) = payments w
   /\ error_of (fst unconfigured) = Some "Configuration error: CHAPA_SECRET_KEY is not set")
  /\ (payments (snd pending) = payments w /\ succeeded (fst pending) = true)
  /\ (payments (snd refused) = payments w
      /\ error_of (fst refused) = Some "Invalid transaction").
Proof.
  intros w unconfigured pending refused. subst unconfigured pending refused.
  pose proof (verify_status_view_without_verdict Sample.unconfigured Sample.unconfigured
                Sample.gebre "P1" (Sample.bill "pending" (Some "REF1")) w
                eq_refl eq_refl eq_refl) as (H1 & _ & _ & H2 & _).
  pose proof (verify_status_view_without_verdict
                (Sample.client Sample.checkout Sample.still_pending) Sample.unconfigured
                Sample.gebre "P1" (Sample.bill "pending" (Some "REF1")) w
                eq_refl eq_refl eq_refl) as (H3 & H4 & _).
  pose proof (verify_status_view_without_verdict
                (Sample.client Sample.checkout Sample.refused) Sample.unconfigured
                Sample.hana "P1" (Sample.bill "pending" (Some "REF1")) w
                eq_refl eq_refl eq_refl) as (H5 & _ & H6 & _).
  split; [| split].
  - split; [apply H1; reflexivity |].
    apply (H2 "CHAPA_SECRET_KEY is not set"). reflexivity.
  - split; [apply H3; reflexivity |].
    apply (H4 Sample.still_pending); [reflexivity | reflexivity | discriminate | discriminate].
  - split; [apply H5; reflexivity |].
    apply (H6 Sample.refused); reflexivity.
Defined.

(** C8, as the spec has it, fails, twice. A payment the gateway reports as
    still pending is not answered with an error: the answer is a success,
    with status 200 and no error in it. And a configured client whose
    [verify_payment] raises a [ValueError], as the decoding of a malformed
    answer does, is answered with a [Configuration error:], word for word
    what a client without its credentials is answered when the texts are the
    same: a misconfigured gateway cannot be told from it. *)
Lemma verify_status_errors_not_distinct :
  let w := Sample.world "pending" "pending" (Some "REF1") in
  let pending :=
    verify_status (Sample.client Sample.checkout Sample.still_pending) Sample.gebre "P1" w in
  let malformed :=
    {| chapa_new := None;
       chapa_initiate_payment := fun _ _ => Returns Sample.checkout;
       chapa_verify_payment :=
         fun _ => Raises (ValueError "Expecting value: line 1 column 1 (char 0)") |} in
  let unconfigured :=
    {| chapa_new := Some (ValueError "Expecting value: line 1 column 1 (char 0)");
       chapa_initiate_payment := fun _ _ => Returns Sample.checkout;
       chapa_verify_payment := fun _ => Returns Sample.verified |} in
  (succeeded (fst pending) = true
   /\ status_code (fst pending) = Some HTTP_200_OK
   /\ error_of (fst pending) = None)
  /\ (error_of (fst (verify_status malformed Sample.gebre "P1" w))
      = Some "Configuration error: Expecting value: line 1 column 1 (char 0)"
      /\ fst (verify_status malformed Sample.gebre "P1" w)
         = fst (verify_status unconfigured Sample.gebre "P1" w)).
Proof. cbv zeta. repeat split. Qed.
